(** * Cricsheet ingestion script: a shallow embedding of
      [scripts/ingest_cricket_data.py] and the properties of its
      extraction and loading logic.

    The script reads nested records produced by a YAML loader, so the
    embedding starts with a small model of the Python values such a loader
    returns and of the handful of built-in operations the script applies to
    them.  Exceptions are explicit: every operation that can raise returns a
    [result]. *)

From Stdlib Require Import ZArith List String Ascii Bool Lia SpecFloat.
Import ListNotations.

Set Warnings "-register-all".

Open Scope string_scope.
Open Scope Z_scope.

(** ** Exceptions and the error monad *)

Inductive exn : Type :=
| AttributeError
| TypeError
| KeyError
| IndexError
| ValueError
| YAMLError
| OSError
| DatabaseError.

Inductive result (A : Type) : Type :=
| Ok (a : A)
| Raise (e : exn).

Arguments Ok {A} a.
Arguments Raise {A} e.

Definition bind {A B : Type} (c : result A) (k : A -> result B) : result B :=
  match c with
  | Ok a => k a
  | Raise e => Raise e
  end.

Notation "x <- c ;; k" := (bind c (fun x => k))
  (at level 61, c at next level, right associativity).
Notation "' pat <- c ;; k" := (bind c (fun x => match x with pat => k end))
  (at level 61, pat pattern, c at next level, right associativity).

(** ** Text: the fragment of [str] and [int] the script relies on

    Strings are sequences of one-byte characters; the model covers ASCII
    text.  CPython's configurable cap on the number of digits [int] and
    [str] convert is not modelled. *)

Module Text.

(** The value of a decimal digit, read off its character code. *)
Definition digit_val (c : ascii) : option Z :=
  let code := Z.of_N (N_of_ascii c) in
  if ((48 <=? code) && (code <=? 57))%bool then Some (code - 48) else None.

Definition is_digit (c : ascii) : bool :=
  match digit_val c with Some _ => true | None => false end.

(** The characters [int] skips on both sides of the literal. *)
Definition is_space (c : ascii) : bool :=
  match c with
  | " "%char | "009"%char | "010"%char | "011"%char | "012"%char
  | "013"%char => true
  | _ => false
  end.

Fixpoint lstrip (s : string) : string :=
  match s with
  | String c r => if is_space c then lstrip r else s
  | EmptyString => EmptyString
  end.

Fixpoint rstrip (s : string) : string :=
  match s with
  | String c r =>
      match rstrip r with
      | EmptyString => if is_space c then EmptyString else String c EmptyString
      | r' => String c r'
      end
  | EmptyString => EmptyString
  end.

Definition strip (s : string) : string := rstrip (lstrip s).

(** Decimal digits with single underscores allowed between digits.
    [after_digit] records whether the previous character was a digit: an
    underscore is accepted only then, and the literal must end on a digit. *)
Fixpoint int_digits (acc : Z) (after_digit : bool) (s : string) : option Z :=
  match s with
  | EmptyString => if after_digit then Some acc else None
  | String c r =>
      match digit_val c with
      | Some d => int_digits (10 * acc + d) true r
      | None =>
          if (Ascii.eqb c "_" && after_digit)%bool
          then int_digits acc false r
          else None
      end
  end.

(** [int(s)] on a string, base 10. *)
Definition py_int (s : string) : result Z :=
  let t := strip s in
  let parsed :=
    match t with
    | String "+"%char r => int_digits 0 false r
    | String "-"%char r => option_map Z.opp (int_digits 0 false r)
    | _ => int_digits 0 false t
    end in
  match parsed with
  | Some n => Ok n
  | None => Raise ValueError
  end.

Definition digit_char (d : Z) : ascii :=
  ascii_of_N (48 + Z.to_N d).

(** Digits of a non-negative number, most significant first, pushed in
    front of [acc]. *)
Fixpoint str_digits (fuel : nat) (n : Z) (acc : string) : string :=
  match fuel with
  | O => acc
  | S f =>
      let acc' := String (digit_char (n mod 10)) acc in
      if n <? 10 then acc' else str_digits f (n / 10) acc'
  end.

Definition digits_fuel (n : Z) : nat := S (Z.to_nat (Z.log2 n)).

(** [str(n)] on an integer, which is also what an f-string renders. *)
Definition py_str_int (n : Z) : string :=
  if n <? 0
  then String "-" (str_digits (digits_fuel (- n)) (- n) EmptyString)
  else str_digits (digits_fuel n) n EmptyString.

(** [s.split(sep)] for a one-character separator: never empty, so the
    first part is returned apart from the others. *)
Fixpoint py_split (sep : ascii) (s : string) : string * list string :=
  match s with
  | EmptyString => (EmptyString, [])
  | String c r =>
      let (h, t) := py_split sep r in
      if Ascii.eqb c sep then (EmptyString, h :: t) else (String c h, t)
  end.

(** [s.lower()] on ASCII text. *)
Definition lower_char (c : ascii) : ascii :=
  let n := N_of_ascii c in
  if ((65 <=? n) && (n <=? 90))%N then ascii_of_N (n + 32) else c.

Fixpoint py_lower (s : string) : string :=
  match s with
  | EmptyString => EmptyString
  | String c r => String (lower_char c) (py_lower r)
  end.

(** [sub in s] *)
Fixpoint py_contains (sub s : string) : bool :=
  if String.prefix sub s then true
  else match s with
       | EmptyString => false
       | String _ r => py_contains sub r
       end.

(** The characters of a rendered integer: digits and the minus sign. *)
Definition label_char (c : ascii) : bool :=
  (is_digit c || Ascii.eqb c "-")%bool.

Fixpoint label_chars (s : string) : bool :=
  match s with
  | EmptyString => true
  | String c r => (label_char c && label_chars r)%bool
  end.

End Text.

(** ** Phase classifier and over/ball key parser *)

(** [get_phase], source lines 35-47. *)
Definition get_phase (over_number : Z) : string :=
  if over_number <=? 5 then "powerplay"
  else if over_number <=? 14 then "middle"
  else "death".

(** [parse_over_ball], source lines 50-58.  The key has already been
    rendered by [str]. *)
Definition parse_over_ball (over_ball_key : string) : result (Z * Z) :=
  let (part0, rest) := Text.py_split "." over_ball_key in
  over_num <- Text.py_int part0 ;;
  ball_num <- match rest with
              | part1 :: _ => Text.py_int part1
              | [] => Ok 1
              end ;;
  Ok (over_num, ball_num).

(** ** Values returned by the YAML loader

    [None], booleans, integers, strings, dates, lists and mappings.
    Mapping keys are strings: a numeric key (the over/ball label of a
    delivery) is represented by what [str] renders for it, which is all the
    script ever does with such a key.  Floating-point scalars, timestamps,
    binary data and sets are outside the model. *)

Inductive pyval : Type :=
| PNone
| PBool (b : bool)
| PInt (n : Z)
| PStr (s : string)
| PDate (y m d : Z)
| PList (items : list pyval)
| PDict (entries : list (string * pyval)).

Module Py.

(** Truth value of an object, as tested by [if], [or] and [not]. *)
Definition truthy (v : pyval) : bool :=
  match v with
  | PNone => false
  | PBool b => b
  | PInt n => negb (n =? 0)
  | PStr s => negb (String.eqb s EmptyString)
  | PDate _ _ _ => true
  | PList l => match l with [] => false | _ => true end
  | PDict d => match d with [] => false | _ => true end
  end.

(** [a or b] *)
Definition or (a b : pyval) : pyval := if truthy a then a else b.

Fixpoint dict_lookup (k : string) (d : list (string * pyval)) : option pyval :=
  match d with
  | [] => None
  | (k', v) :: r => if String.eqb k k' then Some v else dict_lookup k r
  end.

Definition bool_int (b : bool) : Z := if b then 1 else 0.

(** [a == b] on loader values.  [bool] is a subtype of [int]; mappings
    compare without regard to insertion order. *)
Fixpoint eq (a b : pyval) {struct a} : bool :=
  match a, b with
  | PNone, PNone => true
  | PBool x, PBool y => Bool.eqb x y
  | PBool x, PInt n => bool_int x =? n
  | PInt n, PBool x => n =? bool_int x
  | PInt m, PInt n => m =? n
  | PStr s, PStr t => String.eqb s t
  | PDate y m d, PDate y' m' d' => (y =? y') && (m =? m') && (d =? d')
  | PList l1, PList l2 =>
      (fix eq_items (l1 l2 : list pyval) {struct l1} : bool :=
         match l1, l2 with
         | [], [] => true
         | x :: xs, y :: ys => eq x y && eq_items xs ys
         | _, _ => false
         end) l1 l2
  | PDict d1, PDict d2 =>
      (List.length d1 =? List.length d2)%nat &&
      (fix eq_entries (d : list (string * pyval)) : bool :=
         match d with
         | [] => true
         | (k, v) :: r =>
             match dict_lookup k d2 with
             | Some w => eq v w
             | None => false
             end && eq_entries r
         end) d1
  | _, _ => false
  end.

(** [a != b] *)
Definition ne (a b : pyval) : bool := negb (eq a b).

Definition is_dict (v : pyval) : bool :=
  match v with PDict _ => true | _ => false end.

Definition is_list (v : pyval) : bool :=
  match v with PList _ => true | _ => false end.

(** [obj.get(key, default)]: only mappings have the method. *)
Definition get (obj : pyval) (key : string) (default : pyval) : result pyval :=
  match obj with
  | PDict d =>
      Ok (match dict_lookup key d with Some v => v | None => default end)
  | _ => Raise AttributeError
  end.

(** [key in obj] for an object already known to be a mapping. *)
Definition has_key (obj : pyval) (key : string) : bool :=
  match obj with
  | PDict d => match dict_lookup key d with Some _ => true | None => false end
  | _ => false
  end.

(** [obj[key]] with a string key. *)
Definition getitem (obj : pyval) (key : string) : result pyval :=
  match obj with
  | PDict d =>
      match dict_lookup key d with Some v => Ok v | None => Raise KeyError end
  | PNone | PBool _ | PInt _ | PDate _ _ _ => Raise TypeError
  | PStr _ | PList _ => Raise TypeError
  end.

(** [list(obj.keys())[0]] *)
Definition first_key (obj : pyval) : result string :=
  match obj with
  | PDict [] => Raise IndexError
  | PDict ((k, _) :: _) => Ok k
  | _ => Raise AttributeError
  end.

(** [obj[i]] with a non-negative integer index. *)
Definition index (obj : pyval) (i : nat) : result pyval :=
  match obj with
  | PList l =>
      match nth_error l i with Some v => Ok v | None => Raise IndexError end
  | PStr s =>
      match String.get i s with
      | Some c => Ok (PStr (String c EmptyString))
      | None => Raise IndexError
      end
  | PDict _ => Raise KeyError
  | PNone | PBool _ | PInt _ | PDate _ _ _ => Raise TypeError
  end.

(** [len(obj)] *)
Definition len (obj : pyval) : result Z :=
  match obj with
  | PList l => Ok (Z.of_nat (List.length l))
  | PStr s => Ok (Z.of_nat (String.length s))
  | PDict d => Ok (Z.of_nat (List.length d))
  | PNone | PBool _ | PInt _ | PDate _ _ _ => Raise TypeError
  end.

Fixpoint chars (s : string) : list pyval :=
  match s with
  | EmptyString => []
  | String c r => PStr (String c EmptyString) :: chars r
  end.

(** The sequence a [for] loop walks. *)
Definition iter (obj : pyval) : result (list pyval) :=
  match obj with
  | PList l => Ok l
  | PDict d => Ok (map (fun kv => PStr (fst kv)) d)
  | PStr s => Ok (chars s)
  | PNone | PBool _ | PInt _ | PDate _ _ _ => Raise TypeError
  end.

(** [obj.items()] *)
Definition items (obj : pyval) : result (list (string * pyval)) :=
  match obj with
  | PDict d => Ok d
  | _ => Raise AttributeError
  end.

(** [acc += v] for an integer accumulator and a value of [pyval]: an integer
    or a boolean is added, every other value of [pyval] raises [TypeError].
    A floating-point operand, which Python adds, is not a value of
    [pyval]. *)
Definition iadd (acc : Z) (v : pyval) : result Z :=
  match v with
  | PInt n => Ok (acc + n)
  | PBool b => Ok (acc + bool_int b)
  | _ => Raise TypeError
  end.

(** The integer a numeric value stands for in arithmetic. *)
Definition int_value (v : pyval) : Z :=
  match v with
  | PInt n => n
  | PBool b => bool_int b
  | _ => 0
  end.

End Py.

(** A float is an IEEE 754 binary64 number, in the standard library's
    specification of floating-point arithmetic: two texts that denote the
    same number give the same float. *)
Definition pyfloat : Type := spec_float.

(** The binary64 number nearest to [n / d], ties to even, with the given
    sign; overflow gives an infinity.  This is what [float] returns for a
    decimal literal of that value. *)
Definition binary64_of_ratio (negative : bool) (n d : Z) : pyfloat :=
  match n, d with
  | Zpos pn, Zpos pd =>
      SFdiv 53 1024 (S754_finite negative pn 0) (S754_finite false pd 0)
  | _, _ => S754_zero negative
  end.

(** [float(f"{over}.{ball}")].  The text is a float literal unless the part
    after the point carries a sign; its value is [over] followed by the
    digits of [ball] as decimals, so 19 and 10 give 19.1. *)
Definition float_of_over_ball (over ball : Z) : result pyfloat :=
  if ball <? 0 then Raise ValueError
  else
    let decimals := Z.of_nat (String.length (Text.py_str_int ball)) in
    Ok (binary64_of_ratio (over <? 0)
          (Z.abs over * 10 ^ decimals + ball) (10 ^ decimals)).

(** [safe_get], source lines 61-69. *)
Fixpoint safe_get_loop (result : pyval) (keys : list string) (default : pyval)
  : pyval + pyval :=
  match keys with
  | [] => inl result
  | key :: keys' =>
      match result with
      | PDict d =>
          safe_get_loop
            (match Py.dict_lookup key d with Some v => v | None => default end)
            keys' default
      | _ => inr default
      end
  end.

Definition safe_get (data : pyval) (keys : list string) (default : pyval)
  : pyval :=
  match safe_get_loop data keys default with
  | inl result => match result with PNone => default | _ => result end
  | inr returned => returned
  end.

(** ** Extracted rows *)

(** The match-level dictionary built by [extract_match_data]. *)
Module Match.
Record t : Type := {
  source_file : string;
  match_type : pyval;
  competition : pyval;
  season : pyval;
  match_date : pyval;
  venue : pyval;
  city : pyval;
  team1 : pyval;
  team2 : pyval;
  toss_winner : pyval;
  toss_decision : pyval;
  winner : pyval;
  win_by_runs : pyval;
  win_by_wickets : pyval;
  result_type : pyval;
  player_of_match : pyval
}.
End Match.

Module Player.
Record t : Type := {
  player_name : pyval;
  team : string
}.
End Player.

(** One entry of [deliveries_data]. *)
Module Delivery.
Record t : Type := {
  match_id : Z;
  innings_number : Z;
  over_number : Z;
  ball_number : Z;
  batting_team : pyval;
  bowling_team : pyval;
  striker : pyval;
  non_striker : pyval;
  bowler : pyval;
  runs_batter : pyval;
  runs_extras : pyval;
  runs_total : pyval;
  extras_wides : pyval;
  extras_noballs : pyval;
  extras_byes : pyval;
  extras_legbyes : pyval;
  extras_penalty : pyval;
  is_wicket : bool;
  wicket_type : pyval;
  player_dismissed : pyval;
  fielder : pyval;
  is_boundary : bool;
  is_four : bool;
  is_six : bool;
  is_dot_ball : bool;
  is_legal_delivery : bool;
  phase : string
}.
End Delivery.

(** One entry of [innings_data]. *)
Module Innings.
Record t : Type := {
  match_id : Z;
  innings_number : Z;
  batting_team : pyval;
  bowling_team : pyval;
  total_runs : Z;
  total_wickets : Z;
  total_overs : pyfloat;
  total_extras : Z;
  is_super_over : bool
}.
End Innings.

(** ** Match and player extraction *)

(** [extract_match_data], source lines 72-128. *)
Definition extract_match_data (yaml_data : pyval) (source_file : string)
  : result Match.t :=
  info <- Py.get yaml_data "info" (PDict []) ;;
  dates <- Py.get info "dates" (PList []) ;;
  match_date <- (if Py.truthy dates then Py.index dates 0 else Ok PNone) ;;
  season <- (if Py.truthy match_date then
               match match_date with
               | PStr s =>
                   y <- Text.py_int (fst (Text.py_split "-" s)) ;; Ok (PInt y)
               | PDate y _ _ => Ok (PInt y)
               | _ => Ok PNone
               end
             else Ok PNone) ;;
  outcome <- Py.get info "outcome" (PDict []) ;;
  winner <- Py.get outcome "winner" PNone ;;
  win_by <- Py.get outcome "by" (PDict []) ;;
  by_runs <- Py.get win_by "runs" (PInt 0) ;;
  let win_by_runs := Py.or by_runs (PInt 0) in
  by_wickets <- Py.get win_by "wickets" (PInt 0) ;;
  let win_by_wickets := Py.or by_wickets (PInt 0) in
  result_type <- (if Py.has_key outcome "result"
                  then Py.getitem outcome "result"
                  else if negb (Py.truthy winner) then Ok (PStr "no result")
                  else Ok (PStr "normal")) ;;
  teams <- Py.get info "teams" (PList []) ;;
  n1 <- Py.len teams ;;
  team1 <- (if n1 >? 0 then Py.index teams 0 else Ok PNone) ;;
  n2 <- Py.len teams ;;
  team2 <- (if n2 >? 1 then Py.index teams 1 else Ok PNone) ;;
  pom <- Py.get info "player_of_match" (PList []) ;;
  player_of_match <- (if Py.truthy pom then Py.index pom 0 else Ok PNone) ;;
  match_type <- Py.get info "match_type" (PStr "T20") ;;
  competition <- Py.get info "competition" (PStr "IPL") ;;
  venue <- Py.get info "venue" (PStr "Unknown") ;;
  city <- Py.get info "city" PNone ;;
  Ok {| Match.source_file := source_file;
        Match.match_type := match_type;
        Match.competition := competition;
        Match.season := season;
        Match.match_date := match_date;
        Match.venue := venue;
        Match.city := city;
        Match.team1 := team1;
        Match.team2 := team2;
        Match.toss_winner := safe_get info ["toss"; "winner"] PNone;
        Match.toss_decision := safe_get info ["toss"; "decision"] PNone;
        Match.winner := winner;
        Match.win_by_runs := win_by_runs;
        Match.win_by_wickets := win_by_wickets;
        Match.result_type := result_type;
        Match.player_of_match := player_of_match |}.

(** The inner loop of [extract_players]: one team's roster. *)
Definition roster (team : string) (player_list : pyval) : result (list Player.t) :=
  names <- Py.iter player_list ;;
  Ok (map (fun player_name =>
             {| Player.player_name := player_name; Player.team := team |})
          names).

Fixpoint rosters (entries : list (string * pyval)) : result (list Player.t) :=
  match entries with
  | [] => Ok []
  | (team, player_list) :: r =>
      here <- roster team player_list ;;
      later <- rosters r ;;
      Ok (here ++ later)%list
  end.

(** [extract_players], source lines 131-144. *)
Definition extract_players (yaml_data : pyval) : result (list Player.t) :=
  info <- Py.get yaml_data "info" (PDict []) ;;
  players_data <- Py.get info "players" (PDict []) ;;
  entries <- Py.items players_data ;;
  rosters entries.

(** ** Innings and delivery extraction *)

(** The bowling-team loop, source lines 163-167: the first team of the
    list that differs from the batting team, [None] when the loop ends
    without a [break]. *)
Fixpoint infer_bowling_team (teams : list pyval) (batting_team : pyval) : pyval :=
  match teams with
  | [] => PNone
  | team :: teams' =>
      if Py.ne team batting_team then team
      else infer_bowling_team teams' batting_team
  end.

(** Wicket detail, source lines 211-234: the flag, the kind, the player
    out and the first fielder. *)
Definition extract_wicket (delivery : pyval)
  : result (bool * pyval * pyval * pyval) :=
  w1 <- Py.get delivery "wicket" PNone ;;
  w2 <- Py.get delivery "wickets" PNone ;;
  let wicket := Py.or w1 w2 in
  if Py.truthy wicket then
    wicket <- (if Py.is_list wicket then Py.index wicket 0 else Ok wicket) ;;
    wicket_type <- Py.get wicket "kind" PNone ;;
    player_dismissed <- Py.get wicket "player_out" PNone ;;
    fielders <- Py.get wicket "fielders" (PList []) ;;
    fielder <- (if Py.truthy fielders then
                  first <- Py.index fielders 0 ;;
                  if Py.is_dict first then Py.get first "name" PNone
                  else Ok first
                else Ok PNone) ;;
    Ok (true, wicket_type, player_dismissed, fielder)
  else Ok (false, PNone, PNone, PNone).

(** The variables the delivery loop updates. *)
Module Loop.
Record state : Type := {
  total_runs : Z;
  total_wickets : Z;
  total_extras : Z;
  last_over : Z;
  last_ball : Z;
  deliveries_data : list Delivery.t
}.

Definition init : state :=
  {| total_runs := 0; total_wickets := 0; total_extras := 0;
     last_over := 0; last_ball := 0; deliveries_data := [] |}.
End Loop.

(** The body of the delivery loop, source lines 181-273. *)
Definition process_delivery (match_id innings_number : Z)
    (batting_team bowling_team : pyval) (st : Loop.state)
    (delivery_entry : pyval) : result Loop.state :=
  over_ball_key <- Py.first_key delivery_entry ;;
  delivery <- Py.getitem delivery_entry over_ball_key ;;
  '(over_num, ball_num) <- parse_over_ball over_ball_key ;;
  runs <- Py.get delivery "runs" (PDict []) ;;
  batsman <- Py.get runs "batsman" (PInt 0) ;;
  batter <- Py.get runs "batter" (PInt 0) ;;
  let runs_batter := Py.or (Py.or batsman batter) (PInt 0) in
  r_extras <- Py.get runs "extras" (PInt 0) ;;
  let runs_extras := Py.or r_extras (PInt 0) in
  r_total <- Py.get runs "total" (PInt 0) ;;
  let runs_total := Py.or r_total (PInt 0) in
  total_runs <- Py.iadd (Loop.total_runs st) runs_total ;;
  total_extras <- Py.iadd (Loop.total_extras st) runs_extras ;;
  extras <- Py.get delivery "extras" (PDict []) ;;
  wides <- Py.get extras "wides" (PInt 0) ;;
  let extras_wides := Py.or wides (PInt 0) in
  noballs <- Py.get extras "noballs" (PInt 0) ;;
  let extras_noballs := Py.or noballs (PInt 0) in
  byes <- Py.get extras "byes" (PInt 0) ;;
  let extras_byes := Py.or byes (PInt 0) in
  legbyes <- Py.get extras "legbyes" (PInt 0) ;;
  let extras_legbyes := Py.or legbyes (PInt 0) in
  penalty <- Py.get extras "penalty" (PInt 0) ;;
  let extras_penalty := Py.or penalty (PInt 0) in
  let is_legal :=
    Py.eq extras_wides (PInt 0) && Py.eq extras_noballs (PInt 0) in
  '(is_wicket, wicket_type, player_dismissed, fielder) <-
    extract_wicket delivery ;;
  let total_wickets :=
    if is_wicket then Loop.total_wickets st + 1 else Loop.total_wickets st in
  let is_four := Py.eq runs_batter (PInt 4) in
  let is_six := Py.eq runs_batter (PInt 6) in
  let is_boundary := is_four || is_six in
  let is_dot_ball := Py.eq runs_total (PInt 0) && is_legal in
  let phase := get_phase over_num in
  striker1 <- Py.get delivery "batsman" PNone ;;
  striker2 <- Py.get delivery "batter" PNone ;;
  non_striker <- Py.get delivery "non_striker" PNone ;;
  bowler <- Py.get delivery "bowler" PNone ;;
  Ok {| Loop.total_runs := total_runs;
        Loop.total_wickets := total_wickets;
        Loop.total_extras := total_extras;
        Loop.last_over := over_num;
        Loop.last_ball := ball_num;
        Loop.deliveries_data :=
          (Loop.deliveries_data st ++
          [ {| Delivery.match_id := match_id;
               Delivery.innings_number := innings_number;
               Delivery.over_number := over_num;
               Delivery.ball_number := ball_num;
               Delivery.batting_team := batting_team;
               Delivery.bowling_team := bowling_team;
               Delivery.striker := Py.or striker1 striker2;
               Delivery.non_striker := non_striker;
               Delivery.bowler := bowler;
               Delivery.runs_batter := runs_batter;
               Delivery.runs_extras := runs_extras;
               Delivery.runs_total := runs_total;
               Delivery.extras_wides := extras_wides;
               Delivery.extras_noballs := extras_noballs;
               Delivery.extras_byes := extras_byes;
               Delivery.extras_legbyes := extras_legbyes;
               Delivery.extras_penalty := extras_penalty;
               Delivery.is_wicket := is_wicket;
               Delivery.wicket_type := wicket_type;
               Delivery.player_dismissed := player_dismissed;
               Delivery.fielder := fielder;
               Delivery.is_boundary := is_boundary;
               Delivery.is_four := is_four;
               Delivery.is_six := is_six;
               Delivery.is_dot_ball := is_dot_ball;
               Delivery.is_legal_delivery := is_legal;
               Delivery.phase := phase |} ])%list |}.

(** [for delivery_entry in deliveries] *)
Fixpoint deliveries_loop (match_id innings_number : Z)
    (batting_team bowling_team : pyval) (st : Loop.state)
    (deliveries : list pyval) : result Loop.state :=
  match deliveries with
  | [] => Ok st
  | delivery_entry :: later =>
      st' <- process_delivery match_id innings_number batting_team
               bowling_team st delivery_entry ;;
      deliveries_loop match_id innings_number batting_team bowling_team
        st' later
  end.

(** The body of the innings loop, source lines 154-288: the innings row
    and the delivery rows of this innings.  [idx] is the position given by
    [enumerate]. *)
Definition process_innings (match_id : Z) (teams : pyval) (idx : Z)
    (innings_entry : pyval) : result (Innings.t * list Delivery.t) :=
  innings_key <- Py.first_key innings_entry ;;
  innings_info <- Py.getitem innings_entry innings_key ;;
  let innings_number := idx + 1 in
  batting_team <- Py.get innings_info "team" PNone ;;
  team_list <- Py.iter teams ;;
  let bowling_team := infer_bowling_team team_list batting_team in
  let is_super_over := Text.py_contains "super" (Text.py_lower innings_key) in
  deliveries <- Py.get innings_info "deliveries" (PList []) ;;
  delivery_list <- Py.iter deliveries ;;
  st <- deliveries_loop match_id innings_number batting_team bowling_team
          Loop.init delivery_list ;;
  total_overs <- float_of_over_ball (Loop.last_over st) (Loop.last_ball st) ;;
  Ok ({| Innings.match_id := match_id;
         Innings.innings_number := innings_number;
         Innings.batting_team := batting_team;
         Innings.bowling_team := bowling_team;
         Innings.total_runs := Loop.total_runs st;
         Innings.total_wickets := Loop.total_wickets st;
         Innings.total_overs := total_overs;
         Innings.total_extras := Loop.total_extras st;
         Innings.is_super_over := is_super_over |},
      Loop.deliveries_data st).

(** [for idx, innings_entry in enumerate(innings_list)] *)
Fixpoint innings_loop (match_id : Z) (teams : pyval) (idx : Z)
    (innings_list : list pyval) : result (list Innings.t * list Delivery.t) :=
  match innings_list with
  | [] => Ok ([], [])
  | innings_entry :: later =>
      '(row, balls) <- process_innings match_id teams idx innings_entry ;;
      '(rows, balls') <- innings_loop match_id teams (idx + 1) later ;;
      Ok (row :: rows, (balls ++ balls')%list)
  end.

(** [extract_innings_and_deliveries], source lines 147-290. *)
Definition extract_innings_and_deliveries (yaml_data : pyval) (match_id : Z)
    (teams : pyval) : result (list Innings.t * list Delivery.t) :=
  innings_list <- Py.get yaml_data "innings" (PList []) ;;
  entries <- Py.iter innings_list ;;
  innings_loop match_id teams 0 entries.

(** ** Storage

    Modelled from the spec: the table declarations ([schema.sql]) and the
    database server are not part of the script.  The four tables are lists
    of rows; a connection holds the committed tables, the tables as the open
    transaction sees them, and the generator of match identifiers.  What the
    schema accepts, row by row and when the transaction is committed, is a
    parameter. *)

Module Storage.

Record tables : Type := {
  matches : list (Z * Match.t);
  players : list Player.t;
  innings : list Innings.t;
  ball_by_ball : list Delivery.t
}.

Record schema : Type := {
  accepts_match : tables -> Match.t -> bool;
  accepts_player : tables -> Player.t -> bool;
  accepts_innings : tables -> Innings.t -> bool;
  accepts_delivery : tables -> Delivery.t -> bool;
  accepts_commit : tables -> bool
}.

Record connection : Type := {
  committed : tables;
  current : tables;
  next_match_id : Z
}.

Definition commit (c : connection) : connection :=
  {| committed := current c; current := current c;
     next_match_id := next_match_id c |}.

Definition rollback (c : connection) : connection :=
  {| committed := committed c; current := committed c;
     next_match_id := next_match_id c |}.

Definition with_current (c : connection) (t : tables) : connection :=
  {| committed := committed c; current := t;
     next_match_id := next_match_id c |}.

(** [SELECT match_id FROM matches WHERE source_file = %s] and [fetchone] *)
Fixpoint select_match_id (source_file : string) (rows : list (Z * Match.t))
  : option Z :=
  match rows with
  | [] => None
  | (id, m) :: r =>
      if String.eqb (Match.source_file m) source_file then Some id
      else select_match_id source_file r
  end.

Definition same_player (p q : Player.t) : bool :=
  Py.eq (Player.player_name p) (Player.player_name q) &&
  String.eqb (Player.team p) (Player.team q).

End Storage.

Import Storage.

(** Statements that run against a connection and may raise. *)
Definition db (A : Type) : Type := connection -> result A * connection.

Definition db_bind {A B : Type} (m : db A) (k : A -> db B) : db B :=
  fun c =>
    match m c with
    | (Ok a, c') => k a c'
    | (Raise e, c') => (Raise e, c')
    end.

Definition db_ret {A : Type} (a : A) : db A := fun c => (Ok a, c).

(** A computation that does not touch the connection. *)
Definition db_lift {A : Type} (r : result A) : db A := fun c => (r, c).

Notation "x <~ m ;; k" := (db_bind m (fun x => k))
  (at level 61, m at next level, right associativity).

Section Loader.

Variable sch : schema.

(** The input collaborator: what opening a path and [yaml.safe_load]
    produce, a value or an exception. *)
Variable read_yaml : string -> result pyval.

(** [insert_match], source lines 293-317. *)
Definition insert_match (match_data : Match.t) : db (option Z) :=
  fun c =>
    match select_match_id (Match.source_file match_data) (matches (current c)) with
    | Some _ => (Ok None, c)
    | None =>
        if accepts_match sch (current c) match_data then
          let id := next_match_id c in
          let t := current c in
          (Ok (Some id),
           {| committed := committed c;
              current :=
                {| matches := (matches t ++ [(id, match_data)])%list;
                   players := players t;
                   innings := innings t;
                   ball_by_ball := ball_by_ball t |};
              next_match_id := id + 1 |})
        else (Raise DatabaseError, c)
    end.

(** One statement of [insert_players]: [ON CONFLICT ... DO NOTHING]. *)
Definition insert_player (p : Player.t) : db unit :=
  fun c =>
    let t := current c in
    if accepts_player sch t p then
      if existsb (same_player p) (players t) then (Ok tt, c)
      else (Ok tt,
            with_current c
              {| matches := matches t;
                 players := (players t ++ [p])%list;
                 innings := innings t;
                 ball_by_ball := ball_by_ball t |})
    else (Raise DatabaseError, c).

Definition insert_innings_row (r : Innings.t) : db unit :=
  fun c =>
    let t := current c in
    if accepts_innings sch t r then
      (Ok tt,
       with_current c
         {| matches := matches t;
            players := players t;
            innings := (innings t ++ [r])%list;
            ball_by_ball := ball_by_ball t |})
    else (Raise DatabaseError, c).

Definition insert_delivery (r : Delivery.t) : db unit :=
  fun c =>
    let t := current c in
    if accepts_delivery sch t r then
      (Ok tt,
       with_current c
         {| matches := matches t;
            players := players t;
            innings := innings t;
            ball_by_ball := (ball_by_ball t ++ [r])%list |})
    else (Raise DatabaseError, c).

(** [execute_batch]: the statement once per row, in order. *)
Fixpoint execute_batch {A : Type} (stmt : A -> db unit) (rows : list A)
  : db unit :=
  match rows with
  | [] => db_ret tt
  | r :: later => _ <~ stmt r ;; execute_batch stmt later
  end.

Definition insert_players (players : list Player.t) : db unit :=
  execute_batch insert_player players.

Definition insert_innings (innings_data : list Innings.t) : db unit :=
  execute_batch insert_innings_row innings_data.

Definition insert_deliveries (deliveries : list Delivery.t) : db unit :=
  execute_batch insert_delivery deliveries.

(** [os.path.basename] *)
Definition basename (filepath : string) : string :=
  let (first, others) := Text.py_split "/" filepath in
  last others first.

(** The [try] block of [process_yaml_file], source lines 369-405. *)
Definition process_yaml_body (filepath : string) : db bool :=
  let filename := basename filepath in
  yaml_data <~ db_lift (read_yaml filepath) ;;
  if negb (Py.truthy yaml_data) then db_ret false
  else
    match_data <~ db_lift (extract_match_data yaml_data filename) ;;
    inserted <~ insert_match match_data ;;
    match inserted with
    | None => db_ret false
    | Some match_id =>
        players <~ db_lift (extract_players yaml_data) ;;
        _ <~ insert_players players ;;
        teams <~ db_lift (info <- Py.get yaml_data "info" (PDict []) ;;
                          Py.get info "teams" (PList [])) ;;
        extracted <~ db_lift
          (extract_innings_and_deliveries yaml_data match_id teams) ;;
        _ <~ insert_innings (fst extracted) ;;
        _ <~ insert_deliveries (snd extracted) ;;
        db_ret true
    end.

(** [process_yaml_file], source lines 363-412: a YAML error is logged and
    turned into [False]; any other exception is raised again. *)
Definition process_yaml_file (filepath : string) : db bool :=
  fun c =>
    match process_yaml_body filepath c with
    | (Raise YAMLError, c') => (Ok false, c')
    | outcome => outcome
    end.

(** The three counters of [main]. *)
Record counts : Type := {
  success_count : Z;
  skip_count : Z;
  error_count : Z
}.

(** The body of the batch loop, source lines 467-478.  The success counter
    is incremented before the commit: when the commit raises, the handler
    counts the record as an error as well and rolls back. *)
Definition process_one (filepath : string) (n : counts) (c : connection)
  : counts * connection :=
  match process_yaml_file filepath c with
  | (Ok true, c') =>
      if accepts_commit sch (current c') then
        ({| success_count := success_count n + 1;
            skip_count := skip_count n;
            error_count := error_count n |}, commit c')
      else
        ({| success_count := success_count n + 1;
            skip_count := skip_count n;
            error_count := error_count n + 1 |}, rollback c')
  | (Ok false, c') =>
      ({| success_count := success_count n;
          skip_count := skip_count n + 1;
          error_count := error_count n |}, c')
  | (Raise _, c') =>
      ({| success_count := success_count n;
          skip_count := skip_count n;
          error_count := error_count n + 1 |}, rollback c')
  end.

(** [for filepath in yaml_files] *)
Fixpoint files_loop (yaml_files : list string) (n : counts) (c : connection)
  : counts * connection :=
  match yaml_files with
  | [] => (n, c)
  | filepath :: later =>
      let (n', c') := process_one filepath n c in
      files_loop later n' c'
  end.

End Loader.

Definition no_counts : counts :=
  {| success_count := 0; skip_count := 0; error_count := 0 |}.

(** A schema that accepts every row, and a connection to empty tables. *)
Definition permissive : schema :=
  {| accepts_match := fun _ _ => true;
     accepts_player := fun _ _ => true;
     accepts_innings := fun _ _ => true;
     accepts_delivery := fun _ _ => true;
     accepts_commit := fun _ => true |}.

Definition no_tables : tables :=
  {| matches := []; players := []; innings := []; ball_by_ball := [] |}.

Definition fresh_connection : connection :=
  {| committed := no_tables; current := no_tables; next_match_id := 1 |}.

(** The counters after one more skipped record. *)
Definition one_more_skipped (n : counts) : counts :=
  {| success_count := success_count n;
     skip_count := skip_count n + 1;
     error_count := error_count n |}.

(** The field accessor as the specification words it: the value reached
    by indexing mapping after mapping, the default as soon as a key is
    absent or an intermediate value is not a mapping, and the default for a
    reached null. *)
Fixpoint safe_get_spec (data : pyval) (keys : list string) (default : pyval)
  : pyval :=
  match keys with
  | [] => match data with PNone => default | _ => data end
  | key :: keys' =>
      match data with
      | PDict d =>
          match Py.dict_lookup key d with
          | Some v => safe_get_spec v keys' default
          | None => default
          end
      | _ => default
      end
  end.

(** ** Sample records *)

Module Samples.

(** A boundary four with a complete run breakdown. *)
Definition four_entry : pyval :=
  PDict [("0.1", PDict [("batsman", PStr "V Kohli");
                        ("bowler", PStr "JJ Bumrah");
                        ("non_striker", PStr "PD Salt");
                        ("runs", PDict [("batsman", PInt 4);
                                        ("extras", PInt 0);
                                        ("total", PInt 4)])])].

(** A four whose run breakdown omits the total. *)
Definition four_no_total_entry : pyval :=
  PDict [("0.1", PDict [("batsman", PStr "V Kohli");
                        ("bowler", PStr "JJ Bumrah");
                        ("runs", PDict [("batsman", PInt 4)])])].

(** A six recorded under the second spelling, the first spelling at 0. *)
Definition batter_six_fields : list (string * pyval) :=
  [("bowler", PStr "JJ Bumrah");
   ("runs", PDict [("batsman", PInt 0); ("batter", PInt 6);
                   ("extras", PInt 0); ("total", PInt 6)])].

(** A dismissal on a delivery labelled by its over alone. *)
Definition wicket_fields : list (string * pyval) :=
  [("batsman", PStr "PD Salt");
   ("bowler", PStr "JJ Bumrah");
   ("runs", PDict [("batsman", PInt 0); ("extras", PInt 0); ("total", PInt 0)]);
   ("wicket", PDict [("kind", PStr "bowled"); ("player_out", PStr "PD Salt")])].

Definition two_teams : pyval := PList [PStr "RCB"; PStr "MI"].

(** An innings of two deliveries, the last one labelled "5". *)
Definition short_innings_info : list (string * pyval) :=
  [("team", PStr "RCB");
   ("deliveries", PList ([PDict [("4.6", PDict batter_six_fields)]]
                         ++ [PDict [("5", PDict wicket_fields)]]))].

(** An innings of two deliveries, the last one labelled "5.1". *)
Definition plain_innings_info : list (string * pyval) :=
  [("team", PStr "RCB");
   ("deliveries", PList ([PDict [("4.6", PDict batter_six_fields)]]
                         ++ [PDict [("5.1", PDict wicket_fields)]]))].

(** An innings without deliveries. *)
Definition empty_innings_info : list (string * pyval) :=
  [("team", PStr "MI"); ("deliveries", PList [])].

(** A record whose team list names the same team twice. *)
Definition same_team_twice : pyval := PList [PStr "CSK"; PStr "CSK"].

Definition csk_innings : pyval :=
  PDict [("1st innings", PDict [("team", PStr "CSK"); ("deliveries", PList [])])].

(** A complete match record: header, rosters and two innings. *)
Definition match_record : pyval :=
  PDict [("info",
          PDict [("city", PStr "Bengaluru");
                 ("competition", PStr "IPL");
                 ("dates", PList [PDate 2025 4 7]);
                 ("match_type", PStr "T20");
                 ("outcome", PDict [("by", PDict [("runs", PInt 12)]);
                                    ("winner", PStr "RCB")]);
                 ("player_of_match", PList [PStr "V Kohli"]);
                 ("players", PDict [("RCB", PList [PStr "V Kohli"; PStr "PD Salt"]);
                                    ("MI", PList [PStr "JJ Bumrah"])]);
                 ("teams", two_teams);
                 ("toss", PDict [("decision", PStr "field");
                                 ("winner", PStr "MI")]);
                 ("venue", PStr "M Chinnaswamy Stadium")]);
         ("innings",
          PList [PDict [("1st innings", PDict plain_innings_info)];
                 PDict [("2nd innings", PDict empty_innings_info)]])].

(** A directory with an unparseable file, an empty file and a match. *)
Definition files (filepath : string) : result pyval :=
  if String.eqb filepath "data/broken.yaml" then Raise YAMLError
  else if String.eqb filepath "data/empty.yaml" then Ok PNone
  else if String.eqb filepath "data/match1.yaml" then Ok match_record
  else Raise OSError.

End Samples.

(** ** Aggregates over delivery rows, for stating the innings totals *)

(** Sum of an integer-valued column. *)
Definition column_sum (column : Delivery.t -> pyval) (rows : list Delivery.t) : Z :=
  fold_right (fun d acc => Py.int_value (column d) + acc) 0 rows.

(** Number of rows flagged as a wicket. *)
Definition wicket_count (rows : list Delivery.t) : Z :=
  Z.of_nat (List.length (filter Delivery.is_wicket rows)).

(** A delivery entry records a wicket when its 'wicket' section, or else
    its 'wickets' section, is present and not empty. *)
Definition wicket_recorded (entry : pyval) : bool :=
  match Py.first_key entry with
  | Ok key =>
      match Py.getitem entry key with
      | Ok delivery =>
          match Py.get delivery "wicket" PNone,
                Py.get delivery "wickets" PNone with
          | Ok w1, Ok w2 => Py.truthy (Py.or w1 w2)
          | _, _ => false
          end
      | Raise _ => false
      end
  | Raise _ => false
  end.

(** Number of entries that record a wicket. *)
Definition recorded_wickets (entries : list pyval) : Z :=
  Z.of_nat (List.length (filter wicket_recorded entries)).

(** The row carries the over and ball index parsed from the entry's label,
    and is flagged as a wicket when the entry records one. *)
Definition labelled (entry : pyval) (d : Delivery.t) : Prop :=
  (exists key,
     Py.first_key entry = Ok key /\
     parse_over_ball key = Ok (Delivery.over_number d, Delivery.ball_number d)) /\
  Delivery.is_wicket d = wicket_recorded entry.

(** A field of a run breakdown read as an integer: present with that
    integer, or absent, which reads as 0. *)
Definition int_field (fields : list (string * pyval)) (key : string) (n : Z) : Prop :=
  Py.dict_lookup key fields = Some (PInt n) \/
  (Py.dict_lookup key fields = None /\ n = 0).

(** The first non-zero of two integers, 0 when there is none. *)
Definition first_nonzero (a b : Z) : Z :=
  if negb (a =? 0) then a else if negb (b =? 0) then b else 0.

(** ** Notions for stating what the loader keeps *)

(** Nothing is pending: the open transaction sees the committed tables. *)
Definition clean (c : connection) : Prop := current c = committed c.

(** The source files and the identifiers of the stored matches. *)
Definition stored_files (t : tables) : list string :=
  map (fun r => Match.source_file (snd r)) (matches t).

Definition stored_ids (t : tables) : list Z := map fst (matches t).

(** Every stored identifier was issued before the generator's next one. *)
Definition ids_issued (c : connection) : Prop :=
  Forall (fun id => id < next_match_id c) (stored_ids (committed c)) /\
  Forall (fun id => id < next_match_id c) (stored_ids (current c)).

(** The tables [t'] hold the rows of [t], in order, followed by new ones. *)
Definition extends (t t' : tables) : Prop :=
  (exists more, matches t' = (matches t ++ more)%list) /\
  (exists more, players t' = (players t ++ more)%list) /\
  (exists more, innings t' = (innings t ++ more)%list) /\
  (exists more, ball_by_ball t' = (ball_by_ball t ++ more)%list).

(** What any statement may do to a connection: the committed tables stay,
    the identifier generator does not go back, and the open transaction only
    gains rows. *)
Definition grows (c c' : connection) : Prop :=
  committed c' = committed c /\
  next_match_id c <= next_match_id c' /\
  extends (current c) (current c').

Definition growing {A : Type} (m : db A) : Prop :=
  forall c r c', m c = (r, c') -> grows c c'.

(** The counters after one more ingested record. *)
Definition one_more_ingested (n : counts) : counts :=
  {| success_count := success_count n + 1;
     skip_count := skip_count n;
     error_count := error_count n |}.

(** The counters after one more failed record. *)
Definition one_more_failed (n : counts) : counts :=
  {| success_count := success_count n;
     skip_count := skip_count n;
     error_count := error_count n + 1 |}.

(** A schema that rejects every delivery row. *)
Definition rejecting_deliveries : schema :=
  {| accepts_match := fun _ _ => true;
     accepts_player := fun _ _ => true;
     accepts_innings := fun _ _ => true;
     accepts_delivery := fun _ _ => false;
     accepts_commit := fun _ => true |}.

(** A schema under which every commit fails. *)
Definition rejecting_commits : schema :=
  {| accepts_match := fun _ _ => true;
     accepts_player := fun _ _ => true;
     accepts_innings := fun _ _ => true;
     accepts_delivery := fun _ _ => true;
     accepts_commit := fun _ => false |}.

(** A player whose name is a string, and a player the open transaction
    already holds a row for. *)
Definition named (p : Player.t) : Prop :=
  exists s, Player.player_name p = PStr s.

Definition stored_player (p : Player.t) (c : connection) : Prop :=
  existsb (same_player p) (players (current c)) = true.

(** A roster that lists one player twice, and the connection after it has
    been inserted into empty tables. *)
Definition repeated_roster : list Player.t :=
  [ {| Player.player_name := PStr "V Kohli"; Player.team := "RCB" |};
    {| Player.player_name := PStr "PD Salt"; Player.team := "RCB" |};
    {| Player.player_name := PStr "V Kohli"; Player.team := "RCB" |} ].

Definition roster_connection : connection :=
  snd (insert_players permissive repeated_roster fresh_connection).

(** The value of a mapping's field, [None] when the field is absent. *)
Definition field_or_none (fields : list (string * pyval)) (key : string)
  : pyval :=
  match Py.dict_lookup key fields with
  | Some v => v
  | None => PNone
  end.

(** The wicket section of a delivery: 'wicket', or else 'wickets'. *)
Definition wicket_section (fields : list (string * pyval)) : pyval :=
  Py.or (field_or_none fields "wicket") (field_or_none fields "wickets").

(** Records counted by the three counters together. *)
Definition counted (n : counts) : Z :=
  success_count n + skip_count n + error_count n.

(** The players one entry of a roster mapping contributes when its value
    is a list of names. *)
Definition roster_of (entry : string * pyval) : list Player.t :=
  match snd entry with
  | PList names =>
      map (fun player_name =>
             {| Player.player_name := player_name; Player.team := fst entry |})
          names
  | _ => []
  end.

(** The row recorded for a delivery whose mapping is empty. *)
Definition bare_row (match_id innings_number : Z)
    (batting_team bowling_team : pyval) (over_num ball_num : Z) : Delivery.t :=
  {| Delivery.match_id := match_id;
     Delivery.innings_number := innings_number;
     Delivery.over_number := over_num;
     Delivery.ball_number := ball_num;
     Delivery.batting_team := batting_team;
     Delivery.bowling_team := bowling_team;
     Delivery.striker := PNone;
     Delivery.non_striker := PNone;
     Delivery.bowler := PNone;
     Delivery.runs_batter := PInt 0;
     Delivery.runs_extras := PInt 0;
     Delivery.runs_total := PInt 0;
     Delivery.extras_wides := PInt 0;
     Delivery.extras_noballs := PInt 0;
     Delivery.extras_byes := PInt 0;
     Delivery.extras_legbyes := PInt 0;
     Delivery.extras_penalty := PInt 0;
     Delivery.is_wicket := false;
     Delivery.wicket_type := PNone;
     Delivery.player_dismissed := PNone;
     Delivery.fielder := PNone;
     Delivery.is_boundary := false;
     Delivery.is_four := false;
     Delivery.is_six := false;
     Delivery.is_dot_ball := true;
     Delivery.is_legal_delivery := true;
     Delivery.phase := get_phase over_num |}.

(** The dictionary built for a record without header fields. *)
Definition default_match (source_file : string) : Match.t :=
  {| Match.source_file := source_file;
     Match.match_type := PStr "T20";
     Match.competition := PStr "IPL";
     Match.season := PNone;
     Match.match_date := PNone;
     Match.venue := PStr "Unknown";
     Match.city := PNone;
     Match.team1 := PNone;
     Match.team2 := PNone;
     Match.toss_winner := PNone;
     Match.toss_decision := PNone;
     Match.winner := PNone;
     Match.win_by_runs := PInt 0;
     Match.win_by_wickets := PInt 0;
     Match.result_type := PStr "no result";
     Match.player_of_match := PNone |}.

(** The connection after the sample match has been ingested once. *)
Definition loaded_connection : connection :=
  snd (process_one permissive Samples.files "data/match1.yaml" no_counts
         fresh_connection).

(** The outcome of loading the sample match under the schema that
    rejects deliveries, and of a batch run on the loaded connection. *)
Definition rejected_outcome : counts * connection :=
  process_one rejecting_deliveries Samples.files "data/match1.yaml" no_counts
    fresh_connection.

Definition rerun_outcome : counts * connection :=
  files_loop permissive Samples.files
    ["data/broken.yaml"; "data/match1.yaml"] no_counts loaded_connection.

(** * Properties *)

(** ** The error monad *)

Lemma bind_Ok_inv {A B : Type} (c : result A) (k : A -> result B) (b : B) :
  bind c k = Ok b -> exists a, c = Ok a /\ k a = Ok b.
Proof.
  destruct c as [a|e]; simpl; intros H; [eauto | discriminate].
Qed.

Ltac bind_inv H :=
  let a := fresh "v" in
  let Ha := fresh "E" in
  apply bind_Ok_inv in H; destruct H as (a & Ha & H).

Tactic Notation "bind_as" hyp(H) ident(a) ident(Ha) :=
  apply bind_Ok_inv in H; destruct H as (a & Ha & H).

(** ** Decimal text *)

Module TextFacts.
Import Text.

Lemma digit_range (d : Z) :
  0 <= d < 10 ->
  d = 0 \/ d = 1 \/ d = 2 \/ d = 3 \/ d = 4 \/
  d = 5 \/ d = 6 \/ d = 7 \/ d = 8 \/ d = 9.
Proof. lia. Qed.

Lemma digit_val_digit_char (d : Z) :
  0 <= d < 10 -> digit_val (digit_char d) = Some d.
Proof.
  intros H. apply digit_range in H.
  repeat (destruct H as [H | H]; [subst d; reflexivity | ]).
  subst d; reflexivity.
Qed.

Lemma is_digit_digit_char (d : Z) :
  0 <= d < 10 -> is_digit (digit_char d) = true.
Proof.
  intros H. unfold is_digit. now rewrite digit_val_digit_char.
Qed.

Lemma mod10_range (n : Z) : 0 <= n mod 10 < 10.
Proof. apply Z.mod_pos_bound. lia. Qed.

Lemma label_char_not_space (c : ascii) :
  label_char c = true -> is_space c = false.
Proof.
  destruct c as [[] [] [] [] [] [] [] []]; vm_compute; congruence.
Qed.

Lemma label_char_not_dot (c : ascii) :
  label_char c = true -> Ascii.eqb c "." = false.
Proof.
  destruct c as [[] [] [] [] [] [] [] []]; vm_compute; congruence.
Qed.

Lemma label_chars_app (s t : string) :
  label_chars (s ++ t) = (label_chars s && label_chars t)%bool.
Proof.
  induction s as [|c s IH]; simpl; [reflexivity|].
  rewrite IH. now rewrite andb_assoc.
Qed.

Lemma str_digits_label (f : nat) :
  forall n acc, label_chars acc = true -> label_chars (str_digits f n acc) = true.
Proof.
  induction f as [|f IH]; intros n acc Hacc; simpl; [assumption|].
  assert (Hc : label_chars (String (digit_char (n mod 10)) acc) = true).
  { simpl. unfold label_char.
    rewrite (is_digit_digit_char _ (mod10_range n)). now rewrite Hacc. }
  destruct (n <? 10); [exact Hc | now apply IH].
Qed.

(** Rendering starts with a digit. *)
Lemma str_digits_head (f : nat) :
  forall n acc, exists c r,
    str_digits (S f) n acc = String c r /\ is_digit c = true.
Proof.
  induction f as [|f IH]; intros n acc.
  - simpl. destruct (n <? 10);
      (eexists; eexists; split;
       [reflexivity | apply is_digit_digit_char, mod10_range]).
  - change (str_digits (S (S f)) n acc)
      with (if n <? 10 then String (digit_char (n mod 10)) acc
            else str_digits (S f) (n / 10) (String (digit_char (n mod 10)) acc)).
    destruct (n <? 10).
    + eexists; eexists; split;
        [reflexivity | apply is_digit_digit_char, mod10_range].
    + apply IH.
Qed.

Lemma str_digits_S (f : nat) (n : Z) (acc : string) :
  str_digits (S f) n acc
  = if n <? 10 then String (digit_char (n mod 10)) acc
    else str_digits f (n / 10) (String (digit_char (n mod 10)) acc).
Proof. reflexivity. Qed.

Lemma int_digits_digit (a : Z) (flag : bool) (d : Z) (rest : string) :
  0 <= d < 10 ->
  int_digits a flag (String (digit_char d) rest)
  = int_digits (10 * a + d) true rest.
Proof.
  intros Hd. cbn [int_digits]. now rewrite (digit_val_digit_char _ Hd).
Qed.

(** Reading back the digits of [n] in front of [rest] leaves the reader at
    [rest] with [n] appended to what it had accumulated. *)
Lemma int_digits_str_digits (f : nat) :
  forall n, 0 <= n < 10 ^ Z.of_nat (S f) ->
  exists k, 0 <= k /\
    forall rest a flag,
      int_digits a flag (str_digits (S f) n rest)
      = int_digits (a * 10 ^ k + n) true rest.
Proof.
  induction f as [|f IH]; intros n Hn.
  - change (10 ^ Z.of_nat 1) with 10 in Hn.
    exists 1. split; [lia|]. intros rest a flag.
    rewrite str_digits_S.
    destruct (Z.ltb_spec n 10) as [_ | Hge]; [|lia].
    rewrite (int_digits_digit _ _ _ _ (mod10_range n)).
    rewrite Z.mod_small, Z.pow_1_r by lia. f_equal. lia.
  - destruct (Z.ltb_spec n 10) as [Hlt | Hge].
    + exists 1. split; [lia|]. intros rest a flag.
      rewrite str_digits_S.
      destruct (Z.ltb_spec n 10) as [_ | Hge]; [|lia].
      rewrite (int_digits_digit _ _ _ _ (mod10_range n)).
      rewrite Z.mod_small, Z.pow_1_r by lia. f_equal. lia.
    + assert (Hq : 0 <= n / 10 < 10 ^ Z.of_nat (S f)).
      { split; [apply Z.div_pos; lia|].
        apply Z.div_lt_upper_bound; [lia|].
        replace (Z.of_nat (S (S f))) with (1 + Z.of_nat (S f)) in Hn by lia.
        rewrite Z.pow_add_r, Z.pow_1_r in Hn by lia. lia. }
      destruct (IH _ Hq) as (k & Hk & Hread).
      exists (k + 1). split; [lia|]. intros rest a flag.
      rewrite (str_digits_S (S f)).
      destruct (Z.ltb_spec n 10) as [Hlt | _]; [lia|].
      rewrite Hread.
      rewrite (int_digits_digit _ _ _ _ (mod10_range n)).
      f_equal. rewrite Z.pow_add_r, Z.pow_1_r by lia.
      pose proof (Z.div_mod n 10 ltac:(lia)). lia.
Qed.

Lemma digits_fuel_enough (n : Z) :
  0 <= n -> n < 10 ^ Z.of_nat (digits_fuel n).
Proof.
  intros Hn. unfold digits_fuel.
  rewrite Nat2Z.inj_succ, Z2Nat.id by apply Z.log2_nonneg.
  destruct (Z.eq_dec n 0) as [-> | Hnz]; [reflexivity|].
  pose proof (Z.log2_spec n ltac:(lia)) as [_ Hup].
  eapply Z.lt_le_trans; [exact Hup|].
  apply Z.pow_le_mono_l. lia.
Qed.

Lemma lstrip_label (s : string) :
  label_chars s = true -> lstrip s = s.
Proof.
  destruct s as [|c r]; simpl; [reflexivity|].
  intros H. apply andb_prop in H as [Hc _].
  now rewrite (label_char_not_space _ Hc).
Qed.

Lemma rstrip_label (s : string) :
  label_chars s = true -> rstrip s = s.
Proof.
  induction s as [|c r IH]; simpl; [reflexivity|].
  intros H. apply andb_prop in H as [Hc Hr].
  rewrite (IH Hr). destruct r; [|reflexivity].
  now rewrite (label_char_not_space _ Hc).
Qed.

Lemma strip_label (s : string) :
  label_chars s = true -> strip s = s.
Proof.
  intros H. unfold strip. rewrite (lstrip_label _ H). now apply rstrip_label.
Qed.

Lemma py_str_int_label (n : Z) : label_chars (py_str_int n) = true.
Proof.
  unfold py_str_int. destruct (n <? 0).
  - cbn [label_chars]. rewrite str_digits_label by reflexivity. reflexivity.
  - now apply str_digits_label.
Qed.

(** [int(str(n)) = n] *)
Lemma py_int_str_int (n : Z) : py_int (py_str_int n) = Ok n.
Proof.
  unfold py_int. rewrite (strip_label _ (py_str_int_label n)).
  unfold py_str_int, digits_fuel.
  destruct (Z.ltb_spec n 0) as [Hneg | Hpos].
  - destruct (int_digits_str_digits (Z.to_nat (Z.log2 (- n))) (- n))
      as (k & _ & Hread).
    { split; [lia | apply (digits_fuel_enough (- n)); lia]. }
    rewrite Hread. cbn [int_digits option_map].
    f_equal. lia.
  - destruct (str_digits_head (Z.to_nat (Z.log2 n)) n EmptyString) as (c & r & Hs & Hc).
    destruct (int_digits_str_digits (Z.to_nat (Z.log2 n)) n)
      as (k & _ & Hread).
    { split; [lia | apply (digits_fuel_enough n); lia]. }
    assert (Hparse : int_digits 0 false (str_digits (S (Z.to_nat (Z.log2 n))) n EmptyString)
                     = Some n).
    { rewrite Hread. cbn [int_digits]. f_equal; lia. }
    rewrite Hs in *.
    destruct c as [[] [] [] [] [] [] [] []]; vm_compute in Hc;
      try discriminate Hc; rewrite Hparse; reflexivity.
Qed.

Lemma py_split_no_sep (s : string) :
  label_chars s = true -> py_split "." s = (s, []).
Proof.
  induction s as [|c r IH]; simpl; [reflexivity|].
  intros H. apply andb_prop in H as [Hc Hr].
  rewrite (IH Hr). now rewrite (label_char_not_dot _ Hc).
Qed.

Lemma py_split_label (s t : string) :
  label_chars s = true -> label_chars t = true ->
  py_split "." (s ++ "." ++ t) = (s, [t]).
Proof.
  intros Hs Ht. induction s as [|c r IH]; simpl.
  - now rewrite (py_split_no_sep _ Ht).
  - simpl in Hs. apply andb_prop in Hs as [Hc Hr].
    simpl in IH. rewrite (IH Hr). now rewrite (label_char_not_dot _ Hc).
Qed.

End TextFacts.

(** ** The model on concrete inputs *)

Example py_int_forms :
  Text.py_int " 1_000 " = Ok 1000 /\
  Text.py_int "-07" = Ok (-7) /\
  Text.py_int "+3" = Ok 3 /\
  Text.py_int "1__0" = Raise ValueError /\
  Text.py_int "1_" = Raise ValueError /\
  Text.py_int "- 7" = Raise ValueError /\
  Text.py_int "1.5" = Raise ValueError /\
  Text.py_int EmptyString = Raise ValueError.
Proof. repeat split; reflexivity. Qed.

Example py_str_int_forms :
  Text.py_str_int 1903 = "1903" /\ Text.py_str_int (-40) = "-40" /\
  Text.py_str_int 0 = "0".
Proof. repeat split; reflexivity. Qed.

Example py_split_forms :
  Text.py_split "." "1.2.3" = ("1", ["2"; "3"]) /\
  Text.py_split "." "7." = ("7", [EmptyString]) /\
  Text.py_split "." "19" = ("19", []).
Proof. repeat split; reflexivity. Qed.

Example parse_over_ball_rejects :
  parse_over_ball "x.1" = Raise ValueError /\
  parse_over_ball "3." = Raise ValueError /\
  parse_over_ball "1.2.3" = Ok (1, 2).
Proof. repeat split; reflexivity. Qed.

Example super_over_label :
  Text.py_contains "super" (Text.py_lower "Super Over") = true /\
  Text.py_contains "super" (Text.py_lower "1st innings") = false.
Proof. split; reflexivity. Qed.

Example dict_equality_ignores_order :
  Py.eq (PDict [("a", PInt 1); ("b", PBool true)])
        (PDict [("b", PInt 1); ("a", PInt 1)]) = true.
Proof. reflexivity. Qed.

Example sample_match_header :
  exists m,
    extract_match_data Samples.match_record "match1.yaml" = Ok m /\
    Match.season m = PInt 2025 /\
    Match.team1 m = PStr "RCB" /\ Match.team2 m = PStr "MI" /\
    Match.win_by_runs m = PInt 12 /\ Match.win_by_wickets m = PInt 0 /\
    Match.result_type m = PStr "normal" /\
    Match.toss_winner m = PStr "MI".
Proof. eexists. repeat split; reflexivity. Qed.

Example sample_ingestion :
  List.length (matches (committed loaded_connection)) = 1%nat /\
  List.length (players (committed loaded_connection)) = 3%nat /\
  List.length (innings (committed loaded_connection)) = 2%nat /\
  List.length (ball_by_ball (committed loaded_connection)) = 2%nat /\
  next_match_id loaded_connection = 2.
Proof. vm_compute. repeat split; reflexivity. Qed.

(** ** Phase classifier *)

(** C1: over indices 0-5 are powerplay, 6-14 middle, 15 and above death,
    with the boundary values 5, 6, 14 and 15 on the stated sides. *)
Theorem get_phase_bands (over_number : Z) :
  (0 <= over_number <= 5 -> get_phase over_number = "powerplay") /\
  (6 <= over_number <= 14 -> get_phase over_number = "middle") /\
  (15 <= over_number -> get_phase over_number = "death") /\
  get_phase 5 = "powerplay" /\ get_phase 6 = "middle" /\
  get_phase 14 = "middle" /\ get_phase 15 = "death".
Proof.
  unfold get_phase. repeat split; intros.
  - destruct (Z.leb_spec over_number 5); [reflexivity | lia].
  - destruct (Z.leb_spec over_number 5); [lia|].
    destruct (Z.leb_spec over_number 14); [reflexivity | lia].
  - destruct (Z.leb_spec over_number 5); [lia|].
    destruct (Z.leb_spec over_number 14); [lia | reflexivity].
Qed.

Lemma get_phase_bands_witness :
  get_phase 3 = "powerplay" /\ get_phase 9 = "middle" /\ get_phase 19 = "death".
Proof.
  pose proof (get_phase_bands 3) as (H3 & _).
  pose proof (get_phase_bands 9) as (_ & H9 & _).
  pose proof (get_phase_bands 19) as (_ & _ & H19 & _).
  split; [apply H3; lia | split; [apply H9; lia | apply H19; lia]].
Defined.

(** ** Over/ball key parser *)

(** A label whose two parts are free of the separator parses to what
    [int] reads from each part. *)
Lemma parse_over_ball_parts (s t : string) (a b : Z) :
  Text.label_chars s = true -> Text.label_chars t = true ->
  Text.py_int s = Ok a -> Text.py_int t = Ok b ->
  parse_over_ball (s ++ "." ++ t) = Ok (a, b).
Proof.
  intros Hs Ht Ha Hb. unfold parse_over_ball.
  rewrite (TextFacts.py_split_label _ _ Hs Ht).
  rewrite Ha. cbn [bind]. rewrite Hb. reflexivity.
Qed.

(** C2: a label "<int>.<int>" parses to the pair of the two integers, a
    label "<int>" to that integer with ball index 1; "16.3", "0" and "19.6"
    give (16, 3), (0, 1) and (19, 6). *)
Theorem parse_over_ball_labels (a b : Z) :
  parse_over_ball (Text.py_str_int a ++ "." ++ Text.py_str_int b) = Ok (a, b) /\
  parse_over_ball (Text.py_str_int a) = Ok (a, 1) /\
  parse_over_ball "16.3" = Ok (16, 3) /\
  parse_over_ball "0" = Ok (0, 1) /\
  parse_over_ball "19.6" = Ok (19, 6).
Proof.
  split; [|split; [|repeat split; reflexivity]].
  - apply parse_over_ball_parts;
      auto using TextFacts.py_str_int_label, TextFacts.py_int_str_int.
  - unfold parse_over_ball.
    rewrite (TextFacts.py_split_no_sep _ (TextFacts.py_str_int_label a)).
    rewrite TextFacts.py_int_str_int. reflexivity.
Qed.

(** ** The delivery loop *)

Lemma iadd_Ok (acc : Z) (v : pyval) (n : Z) :
  Py.iadd acc v = Ok n -> n = acc + Py.int_value v.
Proof.
  destruct v; simpl; intros H; try discriminate; now inversion H.
Qed.

Lemma extract_wicket_flag (delivery : pyval) (w : bool) (k p f : pyval) :
  extract_wicket delivery = Ok (w, k, p, f) ->
  exists w1 w2,
    Py.get delivery "wicket" PNone = Ok w1 /\
    Py.get delivery "wickets" PNone = Ok w2 /\
    w = Py.truthy (Py.or w1 w2).
Proof.
  unfold extract_wicket. intros H.
  bind_inv H. bind_inv H. exists v, v0. repeat split; try assumption.
  destruct (Py.truthy (Py.or v v0)).
  - repeat bind_inv H. now inversion H.
  - now inversion H.
Qed.

(** What one pass through the loop body leaves behind: one more row, built
    from the entry's label and run breakdown, and the running totals moved
    by that row. *)
Lemma process_delivery_inv (match_id innings_number : Z)
    (batting_team bowling_team : pyval) (st st' : Loop.state) (entry : pyval) :
  process_delivery match_id innings_number batting_team bowling_team st entry
  = Ok st' ->
  exists key delivery runs batsman batter d,
    Py.first_key entry = Ok key /\
    Py.getitem entry key = Ok delivery /\
    Py.get delivery "runs" (PDict []) = Ok runs /\
    Py.get runs "batsman" (PInt 0) = Ok batsman /\
    Py.get runs "batter" (PInt 0) = Ok batter /\
    Delivery.runs_batter d = Py.or (Py.or batsman batter) (PInt 0) /\
    parse_over_ball key = Ok (Delivery.over_number d, Delivery.ball_number d) /\
    Loop.deliveries_data st' = (Loop.deliveries_data st ++ [d])%list /\
    Loop.last_over st' = Delivery.over_number d /\
    Loop.last_ball st' = Delivery.ball_number d /\
    Loop.total_runs st'
    = Loop.total_runs st + Py.int_value (Delivery.runs_total d) /\
    Loop.total_extras st'
    = Loop.total_extras st + Py.int_value (Delivery.runs_extras d) /\
    Loop.total_wickets st'
    = Loop.total_wickets st + (if Delivery.is_wicket d then 1 else 0) /\
    Delivery.batting_team d = batting_team /\
    Delivery.bowling_team d = bowling_team /\
    Delivery.phase d = get_phase (Delivery.over_number d) /\
    Delivery.is_legal_delivery d
    = (Py.eq (Delivery.extras_wides d) (PInt 0) &&
       Py.eq (Delivery.extras_noballs d) (PInt 0))%bool /\
    Delivery.is_four d = Py.eq (Delivery.runs_batter d) (PInt 4) /\
    Delivery.is_six d = Py.eq (Delivery.runs_batter d) (PInt 6) /\
    Delivery.is_boundary d = (Delivery.is_four d || Delivery.is_six d)%bool /\
    Delivery.is_dot_ball d
    = (Py.eq (Delivery.runs_total d) (PInt 0) &&
       Delivery.is_legal_delivery d)%bool /\
    Delivery.is_wicket d = wicket_recorded entry.
Proof.
  unfold process_delivery. intros H.
  bind_as H key Hkey. bind_as H delivery Hdelivery.
  bind_as H ob Hparse. destruct ob as [over_num ball_num].
  bind_as H runs Hruns.
  bind_as H batsman Hbatsman. bind_as H batter Hbatter.
  bind_as H r_extras Hextras. bind_as H r_total Htotal.
  bind_as H total_runs Hsum. bind_as H total_extras Hsumx.
  apply iadd_Ok in Hsum. apply iadd_Ok in Hsumx.
  do 6 bind_inv H.
  bind_as H wk Hwk.
  destruct wk as [[[is_wicket wicket_type] player_dismissed] fielder].
  do 4 bind_inv H.
  inversion H; subst; clear H. cbn.
  eexists key, delivery, runs, batsman, batter, _.
  repeat split; try eassumption; try reflexivity.
  - cbn. destruct is_wicket; lia.
  - cbn. apply extract_wicket_flag in Hwk as (w1 & w2 & Hw1 & Hw2 & ->).
    unfold wicket_recorded. now rewrite Hkey, Hdelivery, Hw1, Hw2.
Qed.

Lemma column_sum_app (column : Delivery.t -> pyval) (xs ys : list Delivery.t) :
  column_sum column (xs ++ ys) = column_sum column xs + column_sum column ys.
Proof.
  unfold column_sum. induction xs as [|x xs IH]; cbn [fold_right app]; lia.
Qed.

Lemma wicket_count_app (xs ys : list Delivery.t) :
  wicket_count (xs ++ ys) = wicket_count xs + wicket_count ys.
Proof.
  unfold wicket_count. rewrite filter_app, length_app. lia.
Qed.

Lemma wicket_count_one (d : Delivery.t) :
  wicket_count [d] = if Delivery.is_wicket d then 1 else 0.
Proof.
  unfold wicket_count. cbn [filter]. now destruct (Delivery.is_wicket d).
Qed.

Lemma last_cons {A : Type} (l : list A) :
  forall a x, last (a :: l) x = last l a.
Proof.
  induction l as [|b l IH]; intros a x; [reflexivity|].
  change (last (a :: b :: l) x) with (last (b :: l) x).
  now rewrite (IH b x), (IH b a).
Qed.

(** The loop invariant: the rows appended match the entries walked one for
    one, the totals move by the rows' columns, and the last label parsed is
    that of the last row. *)
Lemma deliveries_loop_inv (match_id innings_number : Z)
    (batting_team bowling_team : pyval) (entries : list pyval) :
  forall st st',
    deliveries_loop match_id innings_number batting_team bowling_team st entries
    = Ok st' ->
    exists rows,
      Loop.deliveries_data st' = (Loop.deliveries_data st ++ rows)%list /\
      Forall2 labelled entries rows /\
      Forall (fun d => Delivery.batting_team d = batting_team /\
                       Delivery.bowling_team d = bowling_team) rows /\
      Loop.total_runs st'
      = Loop.total_runs st + column_sum Delivery.runs_total rows /\
      Loop.total_extras st'
      = Loop.total_extras st + column_sum Delivery.runs_extras rows /\
      Loop.total_wickets st' = Loop.total_wickets st + wicket_count rows /\
      Loop.last_over st' = last (map Delivery.over_number rows) (Loop.last_over st) /\
      Loop.last_ball st' = last (map Delivery.ball_number rows) (Loop.last_ball st).
Proof.
  induction entries as [|entry later IH]; intros st st' H.
  - cbn in H. inversion H; subst. exists []. rewrite app_nil_r.
    repeat split; try constructor; cbn; lia.
  - cbn [deliveries_loop] in H. bind_as H st1 Hstep.
    apply process_delivery_inv in Hstep
      as (key & delivery & runs & batsman & batter & d & Hkey & _ & _ & _ & _ &
          _ & Hparse & Hrows & Hover & Hball & Hruns & Hextras & Hwk & Hbt &
          Hbw & _ & _ & _ & _ & _ & _ & Hrec).
    destruct (IH _ _ H)
      as (rows & Hrows' & Hlab & Hteams & Hruns' & Hextras' & Hwk' & Hover' & Hball').
    exists (d :: rows).
    rewrite Hrows' , Hrows, <- app_assoc. cbn [app].
    split; [reflexivity|].
    split; [constructor; [split; [exists key; now split | exact Hrec]
                         | assumption]|].
    split; [constructor; [now split | assumption]|].
    change (d :: rows) with ([d] ++ rows)%list.
    rewrite !column_sum_app, wicket_count_app, wicket_count_one.
    unfold column_sum at 1 3. cbn [fold_right].
    rewrite Hruns', Hextras', Hwk', Hruns, Hextras, Hwk.
    repeat split; try lia.
    + rewrite Hover', Hover. cbn [app map]. now rewrite last_cons.
    + rewrite Hball', Hball. cbn [app map]. now rewrite last_cons.
Qed.

Lemma wicket_count_recorded (entries : list pyval) (rows : list Delivery.t) :
  Forall2 labelled entries rows ->
  wicket_count rows = recorded_wickets entries.
Proof.
  unfold wicket_count, recorded_wickets.
  induction 1 as [|entry d entries rows [_ Hflag] _ IH]; [reflexivity|].
  cbn [filter]. rewrite Hflag.
  destruct (wicket_recorded entry); cbn [List.length]; lia.
Qed.

(** What the innings loop body computes, in terms of its parts. *)
Lemma process_innings_inv (match_id : Z) (teams : pyval) (idx : Z)
    (entry : pyval) (row : Innings.t) (balls : list Delivery.t) :
  process_innings match_id teams idx entry = Ok (row, balls) ->
  exists key info team_list deliveries delivery_list st,
    Py.first_key entry = Ok key /\
    Py.getitem entry key = Ok info /\
    Py.get info "team" PNone = Ok (Innings.batting_team row) /\
    Py.iter teams = Ok team_list /\
    Innings.bowling_team row
    = infer_bowling_team team_list (Innings.batting_team row) /\
    Py.get info "deliveries" (PList []) = Ok deliveries /\
    Py.iter deliveries = Ok delivery_list /\
    deliveries_loop match_id (idx + 1) (Innings.batting_team row)
      (Innings.bowling_team row) Loop.init delivery_list = Ok st /\
    balls = Loop.deliveries_data st /\
    float_of_over_ball (Loop.last_over st) (Loop.last_ball st)
    = Ok (Innings.total_overs row) /\
    Innings.total_runs row = Loop.total_runs st /\
    Innings.total_wickets row = Loop.total_wickets st /\
    Innings.total_extras row = Loop.total_extras st /\
    Innings.innings_number row = idx + 1.
Proof.
  unfold process_innings. intros H.
  bind_as H key Hkey. bind_as H info Hinfo. bind_as H bt Hbt.
  bind_as H team_list Hteams. bind_as H deliveries Hdv.
  bind_as H delivery_list Hdl. bind_as H st Hloop. bind_as H overs Hovers.
  inversion H; subst; clear H. cbn.
  exists key, info, team_list, deliveries, delivery_list, st.
  repeat split; assumption || reflexivity.
Qed.

(** ** Derived flags of a delivery *)

(** C3 as stated fails: a four whose run breakdown carries no total is
    legal, has batter runs 4, and is flagged as a dot ball. *)
Lemma delivery_flags_counterexample :
  exists st' d,
    process_delivery 1 1 (PStr "RCB") (PStr "MI") Loop.init
      Samples.four_no_total_entry = Ok st' /\
    Loop.deliveries_data st' = [d] /\
    Delivery.runs_batter d = PInt 4 /\
    Delivery.is_legal_delivery d = true /\
    ~ (Delivery.is_four d = true /\ Delivery.is_boundary d = true /\
       Delivery.is_dot_ball d = false).
Proof.
  eexists. eexists. split; [reflexivity|].
  split; [reflexivity|]. split; [reflexivity|]. split; [reflexivity|].
  cbn. intros (_ & _ & H). discriminate H.
Qed.

(** C3, amended: legal iff wides and no-balls are both zero, four iff
    batter runs equal 4, boundary iff batter runs equal 4 or 6, dot ball iff
    total runs equal 0 and the delivery is legal; hence batter runs 4 on a
    legal delivery with non-zero total runs give four, boundary and no dot
    ball, and total runs 0 with a wide recorded give no dot ball. *)
Theorem delivery_flags (match_id innings_number : Z)
    (batting_team bowling_team : pyval) (st st' : Loop.state) (entry : pyval) :
  process_delivery match_id innings_number batting_team bowling_team st entry
  = Ok st' ->
  exists d,
    Loop.deliveries_data st' = (Loop.deliveries_data st ++ [d])%list /\
    (Delivery.is_legal_delivery d = true <->
     Py.eq (Delivery.extras_wides d) (PInt 0) = true /\
     Py.eq (Delivery.extras_noballs d) (PInt 0) = true) /\
    (Delivery.is_four d = true <->
     Py.eq (Delivery.runs_batter d) (PInt 4) = true) /\
    (Delivery.is_boundary d = true <->
     Py.eq (Delivery.runs_batter d) (PInt 4) = true \/
     Py.eq (Delivery.runs_batter d) (PInt 6) = true) /\
    (Delivery.is_dot_ball d = true <->
     Py.eq (Delivery.runs_total d) (PInt 0) = true /\
     Delivery.is_legal_delivery d = true) /\
    (Delivery.runs_batter d = PInt 4 ->
     Delivery.is_legal_delivery d = true ->
     Py.eq (Delivery.runs_total d) (PInt 0) = false ->
     Delivery.is_four d = true /\ Delivery.is_boundary d = true /\
     Delivery.is_dot_ball d = false) /\
    (Py.eq (Delivery.runs_total d) (PInt 0) = true ->
     Py.eq (Delivery.extras_wides d) (PInt 0) = false ->
     Delivery.is_dot_ball d = false).
Proof.
  intros H.
  apply process_delivery_inv in H
    as (key & delivery & runs & batsman & batter & d & _ & _ & _ & _ & _ & _ &
        _ & Hrows & _ & _ & _ & _ & _ & _ & _ & _ & Hlegal & Hfour & Hsix &
        Hboundary & Hdot & _).
  exists d. split; [exact Hrows|].
  rewrite Hdot, Hboundary, Hlegal, Hfour, Hsix.
  split; [apply andb_true_iff|].
  split; [reflexivity|].
  split; [apply orb_true_iff|].
  split; [apply andb_true_iff|].
  split.
  - intros Hb _ Ht. rewrite Hb, Ht. repeat split; reflexivity.
  - intros _ Hw. rewrite Hw. cbn [andb]. apply andb_false_r.
Qed.

Lemma delivery_flags_witness :
  exists st',
    process_delivery 1 1 (PStr "RCB") (PStr "MI") Loop.init Samples.four_entry
    = Ok st' /\
    exists d,
      Loop.deliveries_data st' = [d] /\
      Delivery.is_four d = true /\ Delivery.is_boundary d = true /\
      Delivery.is_dot_ball d = false.
Proof.
  eexists. split; [reflexivity|].
  destruct (delivery_flags 1 1 (PStr "RCB") (PStr "MI") Loop.init _
              Samples.four_entry eq_refl)
    as (d & Hrows & _ & _ & _ & _ & Hfour & _).
  exists d. split; [exact Hrows|].
  cbn in Hrows. inversion Hrows; subst d.
  apply Hfour; reflexivity.
Defined.

(** ** Striker's runs *)

Lemma first_key_cons (key : string) (v : pyval) (more : list (string * pyval)) :
  Py.first_key (PDict ((key, v) :: more)) = Ok key.
Proof. reflexivity. Qed.

Lemma getitem_first (key : string) (v : pyval) (more : list (string * pyval)) :
  Py.getitem (PDict ((key, v) :: more)) key = Ok v.
Proof. cbn. now rewrite String.eqb_refl. Qed.

Lemma get_int_field (fields : list (string * pyval)) (key : string) (n : Z)
    (v : pyval) :
  int_field fields key n ->
  Py.get (PDict fields) key (PInt 0) = Ok v -> v = PInt n.
Proof.
  unfold Py.get. intros [Hin | [Hout ->]] H.
  - rewrite Hin in H. now inversion H.
  - rewrite Hout in H. now inversion H.
Qed.

Lemma or_first_nonzero (a b : Z) :
  Py.or (Py.or (PInt a) (PInt b)) (PInt 0) = PInt (first_nonzero a b).
Proof.
  unfold Py.or, first_nonzero. cbn [Py.truthy].
  destruct (a =? 0) eqn:Ea; cbn [negb Py.truthy]; rewrite ?Ea; cbn [negb];
    [|reflexivity].
  destruct (b =? 0) eqn:Eb; cbn [negb Py.truthy]; rewrite ?Eb; reflexivity.
Qed.

(** C10: the striker's runs are the first non-zero of the run breakdown's
    'batsman' and 'batter' fields, 0 when both are absent or zero; a
    'batsman' of 0 gives way to a non-zero 'batter'. *)
Theorem striker_runs (match_id innings_number : Z)
    (batting_team bowling_team : pyval) (st st' : Loop.state)
    (key : string) (fields more runs : list (string * pyval)) (a b : Z) :
  Py.dict_lookup "runs" fields = Some (PDict runs) \/
  (Py.dict_lookup "runs" fields = None /\ runs = []) ->
  int_field runs "batsman" a ->
  int_field runs "batter" b ->
  process_delivery match_id innings_number batting_team bowling_team st
    (PDict ((key, PDict fields) :: more)) = Ok st' ->
  exists d,
    Loop.deliveries_data st' = (Loop.deliveries_data st ++ [d])%list /\
    Delivery.runs_batter d = PInt (first_nonzero a b) /\
    (a <> 0 -> Delivery.runs_batter d = PInt a) /\
    (a = 0 -> b <> 0 -> Delivery.runs_batter d = PInt b) /\
    (a = 0 -> b = 0 -> Delivery.runs_batter d = PInt 0).
Proof.
  intros Hruns Ha Hb H.
  apply process_delivery_inv in H
    as (key' & delivery & runs' & batsman & batter & d & Hkey & Hitem & Hget &
        Hbatsman & Hbatter & Hval & _ & Hrows & _).
  rewrite first_key_cons in Hkey. inversion Hkey; subst key'.
  rewrite getitem_first in Hitem. inversion Hitem; subst delivery.
  assert (Hr : runs' = PDict runs).
  { unfold Py.get in Hget.
    destruct Hruns as [Hin | [Hout ->]];
      [rewrite Hin in Hget | rewrite Hout in Hget]; now inversion Hget. }
  subst runs'.
  apply (get_int_field _ _ _ _ Ha) in Hbatsman.
  apply (get_int_field _ _ _ _ Hb) in Hbatter.
  subst batsman batter. rewrite or_first_nonzero in Hval.
  exists d. split; [exact Hrows|]. split; [exact Hval|].
  rewrite Hval. unfold first_nonzero.
  repeat split; intros.
  - destruct (Z.eqb_spec a 0); [contradiction | reflexivity].
  - subst a. cbn. destruct (Z.eqb_spec b 0); [contradiction | reflexivity].
  - subst a b. reflexivity.
Qed.

Lemma striker_runs_witness :
  exists st',
    process_delivery 1 1 (PStr "RCB") (PStr "MI") Loop.init
      (PDict [("4.6", PDict Samples.batter_six_fields)]) = Ok st' /\
    exists d,
      Loop.deliveries_data st' = [d] /\ Delivery.runs_batter d = PInt 6.
Proof.
  eexists. split; [reflexivity|].
  destruct (striker_runs 1 1 (PStr "RCB") (PStr "MI") Loop.init _ "4.6"
              Samples.batter_six_fields []
              [("batsman", PInt 0); ("batter", PInt 6);
               ("extras", PInt 0); ("total", PInt 6)] 0 6
              (or_introl eq_refl) (or_introl eq_refl) (or_introl eq_refl)
              eq_refl)
    as (d & Hrows & _ & _ & Hb & _).
  exists d. split; [exact Hrows|].
  apply Hb; [reflexivity | discriminate].
Defined.

(** ** Innings totals *)

Lemma float_of_over_ball_Ok (over ball : Z) (f : pyfloat) :
  float_of_over_ball over ball = Ok f -> 0 <= ball.
Proof.
  unfold float_of_over_ball. destruct (Z.ltb_spec ball 0) as [Hlt | Hge];
    intros Hok; [discriminate | assumption].
Qed.

(** 19.10 and 19.1 are one float; the label "7.08" parses to (7, 8) and
    so records 7.8, not 7.08. *)
Example overs_faced_values :
  float_of_over_ball 19 10 = float_of_over_ball 19 1 /\
  float_of_over_ball 19 3 = Ok (S754_finite false 5432467050515661 (-48)) /\
  parse_over_ball "7.08" = Ok (7, 8) /\
  float_of_over_ball 7 8 = Ok (S754_finite false 8782019273372467 (-50)) /\
  float_of_over_ball (-3) 5 = Ok (S754_finite true 7881299347898368 (-51)) /\
  float_of_over_ball 3 (-1) = Raise ValueError /\
  float_of_over_ball (10 ^ 400) 0 = Ok (S754_infinity false).
Proof. repeat split; vm_compute; reflexivity. Qed.

(** C7: an innings entry with zero deliveries yields an innings row with
    total runs 0, total wickets 0, total extras 0 and overs faced 0.0. *)
Theorem empty_innings_totals (match_id : Z) (teams : pyval)
    (team_list : list pyval) (idx : Z) (key : string)
    (info more : list (string * pyval)) (deliveries : pyval) :
  Py.iter teams = Ok team_list ->
  Py.get (PDict info) "deliveries" (PList []) = Ok deliveries ->
  Py.iter deliveries = Ok [] ->
  exists row,
    process_innings match_id teams idx (PDict ((key, PDict info) :: more))
    = Ok (row, []) /\
    Innings.total_runs row = 0 /\
    Innings.total_wickets row = 0 /\
    Innings.total_extras row = 0 /\
    Innings.total_overs row = S754_zero false.
Proof.
  intros Hteams Hdeliveries Hnone.
  unfold process_innings.
  rewrite first_key_cons. cbn [bind].
  rewrite getitem_first. cbn [bind].
  change (Py.get (PDict info) "team" PNone)
    with (Ok (match Py.dict_lookup "team" info with
              | Some v => v | None => PNone end)).
  cbn [bind]. rewrite Hteams. cbn [bind].
  rewrite Hdeliveries. cbn [bind]. rewrite Hnone. cbn [bind deliveries_loop].
  eexists. split; [reflexivity|]. repeat split.
Qed.

Lemma empty_innings_totals_witness :
  exists row,
    process_innings 1 Samples.two_teams 1
      (PDict [("2nd innings", PDict Samples.empty_innings_info)]) = Ok (row, []) /\
    Innings.total_runs row = 0 /\
    Innings.total_wickets row = 0 /\
    Innings.total_extras row = 0 /\
    Innings.total_overs row = S754_zero false.
Proof.
  exact (empty_innings_totals 1 Samples.two_teams
           [PStr "RCB"; PStr "MI"] 1 "2nd innings"
           Samples.empty_innings_info [] (PList [])
           eq_refl eq_refl eq_refl).
Defined.

(** C8 as stated fails: when the final delivery is labelled "5", the
    innings' overs faced is 5.1, not 5.0, the number the label denotes. *)
Lemma innings_totals_counterexample :
  exists row balls,
    process_innings 1 Samples.two_teams 0
      (PDict [("1st innings", PDict Samples.short_innings_info)])
    = Ok (row, balls) /\
    List.length balls = 2%nat /\
    Innings.total_overs row = S754_finite false 5742089524897382 (-50) /\
    float_of_over_ball 5 1 = Ok (Innings.total_overs row) /\
    float_of_over_ball 5 0 = Ok (S754_finite false 5629499534213120 (-50)) /\
    Innings.total_overs row <> S754_finite false 5629499534213120 (-50).
Proof.
  eexists. eexists. split; [reflexivity|].
  split; [reflexivity|]. split; [reflexivity|].
  split; [reflexivity|]. split; [reflexivity|].
  cbn. discriminate.
Qed.

(** C8, amended: for an innings with at least one delivery, overs faced is
    not the label taken verbatim but the float of "<over>.<ball>" built again
    from the over and ball index parsed out of the final delivery's label
    (the float of the label when the label is exactly that text; "5" records
    5.1 and "7.08" records 7.8); total runs is the sum of the deliveries'
    total runs, the wicket count the number of deliveries with a recorded
    wicket, and total extras the sum of the deliveries' extras runs. *)
Theorem innings_totals (match_id : Z) (teams : pyval) (idx : Z)
    (key : string) (info more : list (string * pyval))
    (front : list pyval) (label : string) (body : pyval)
    (rest : list (string * pyval)) (row : Innings.t) (balls : list Delivery.t) :
  Py.dict_lookup "deliveries" info
  = Some (PList (front ++ [PDict ((label, body) :: rest)])) ->
  process_innings match_id teams idx (PDict ((key, PDict info) :: more))
  = Ok (row, balls) ->
  exists over ball,
    parse_over_ball label = Ok (over, ball) /\
    0 <= ball /\
    float_of_over_ball over ball = Ok (Innings.total_overs row) /\
    (forall a b,
       label = Text.py_str_int a ++ "." ++ Text.py_str_int b ->
       float_of_over_ball a b = Ok (Innings.total_overs row)) /\
    List.length balls = S (List.length front) /\
    Innings.total_runs row = column_sum Delivery.runs_total balls /\
    Innings.total_wickets row = wicket_count balls /\
    Innings.total_wickets row
    = recorded_wickets (front ++ [PDict ((label, body) :: rest)]) /\
    Innings.total_extras row = column_sum Delivery.runs_extras balls.
Proof.
  intros Hdeliveries H.
  apply process_innings_inv in H
    as (key' & info' & team_list & deliveries & delivery_list & st & Hkey &
        Hinfo & _ & _ & _ & Hget & Hiter & Hloop & Hballs & Hfloat & Hruns &
        Hwk & Hextras & _).
  rewrite first_key_cons in Hkey. inversion Hkey; subst key'.
  rewrite getitem_first in Hinfo. inversion Hinfo; subst info'.
  unfold Py.get in Hget. rewrite Hdeliveries in Hget.
  inversion Hget; subst deliveries.
  cbn [Py.iter] in Hiter. inversion Hiter; subst delivery_list.
  apply deliveries_loop_inv in Hloop
    as (rows & Hrows & Hlab & _ & Hruns' & Hextras' & Hwk' & Hover & Hball).
  cbn [Loop.init Loop.deliveries_data Loop.total_runs Loop.total_extras
       Loop.total_wickets Loop.last_over Loop.last_ball app]
    in Hrows, Hruns', Hextras', Hwk', Hover, Hball.
  rewrite Hrows in Hballs. subst balls.
  pose proof (wicket_count_recorded _ _ Hlab) as Hrecorded.
  apply Forall2_app_inv_l in Hlab as (rows1 & rows2 & Hfront & Hlast & ->).
  inversion Hlast as [|e d es ds [(k & Hk & Hparse) _] Hnil]; subst.
  inversion Hnil; subst.
  rewrite first_key_cons in Hk. inversion Hk; subst k.
  rewrite map_app in Hover, Hball. cbn [map] in Hover, Hball.
  rewrite last_last in Hover, Hball.
  rewrite Hover, Hball in Hfloat.
  exists (Delivery.over_number d), (Delivery.ball_number d).
  split; [exact Hparse|].
  split; [exact (float_of_over_ball_Ok _ _ _ Hfloat)|].
  split; [exact Hfloat|].
  split.
  { intros a b Hlabel.
    assert (Hab : parse_over_ball label = Ok (a, b)).
    { rewrite Hlabel. apply parse_over_ball_parts;
        auto using TextFacts.py_str_int_label, TextFacts.py_int_str_int. }
    rewrite Hparse in Hab. injection Hab as Ha Hb.
    now rewrite <- Ha, <- Hb. }
  split.
  { rewrite length_app. apply Forall2_length in Hfront. cbn. lia. }
  rewrite <- Hrecorded.
  rewrite Hruns, Hwk, Hextras, Hruns', Hwk', Hextras'. repeat split.
Qed.

Lemma innings_totals_witness :
  exists row balls,
    process_innings 1 Samples.two_teams 0
      (PDict [("1st innings", PDict Samples.plain_innings_info)])
    = Ok (row, balls) /\
    float_of_over_ball 5 1 = Ok (Innings.total_overs row) /\
    Innings.total_runs row = 6 /\
    Innings.total_wickets row = 1 /\
    Innings.total_extras row = 0.
Proof.
  eexists. eexists. split; [reflexivity|].
  destruct (innings_totals 1 Samples.two_teams 0 "1st innings"
              Samples.plain_innings_info []
              [PDict [("4.6", PDict Samples.batter_six_fields)]]
              "5.1" (PDict Samples.wicket_fields) [] _ _ eq_refl eq_refl)
    as (over & ball & _ & _ & _ & Hlabel & _ & Hruns & Hwk & _ & Hextras).
  split; [exact (Hlabel 5 1 eq_refl)|].
  split; [exact Hruns|]. split; [exact Hwk | exact Hextras].
Defined.

(** ** Bowling team *)

Lemma eq_PStr_inv (s : string) (v : pyval) :
  Py.eq (PStr s) v = true -> v = PStr s.
Proof.
  destruct v; cbn; try discriminate.
  intros H. apply String.eqb_eq in H. now subst.
Qed.

(** The loop ends without a [break] exactly when no team differs from the
    batting team. *)
Lemma infer_bowling_team_none (teams : list pyval) (batting_team : pyval) :
  ~ In PNone teams ->
  (infer_bowling_team teams batting_team = PNone <->
   Forall (fun team => Py.eq team batting_team = true) teams).
Proof.
  induction teams as [|team teams IH]; intros Hnone.
  - split; [constructor | reflexivity].
  - cbn [infer_bowling_team]. unfold Py.ne.
    assert (Hteam : team <> PNone) by (intros ->; apply Hnone; now left).
    assert (Hrest : ~ In PNone teams) by (intros Hin; apply Hnone; now right).
    destruct (Py.eq team batting_team) eqn:E; cbn [negb].
    + rewrite (IH Hrest). split.
      * intros Hall. now constructor.
      * intros Hall. now inversion Hall.
    + split; [contradiction|].
      intros Hall. inversion Hall; subst. congruence.
Qed.

(** C4 as stated fails: the team list has two entries, both naming the
    batting team, and the bowling team is left unknown. *)
Lemma bowling_team_counterexample :
  exists row balls,
    process_innings 1 Samples.same_team_twice 0 Samples.csk_innings
    = Ok (row, balls) /\
    Py.len Samples.same_team_twice = Ok 2 /\
    ~ 2 < 2 /\
    Innings.bowling_team row = PNone.
Proof.
  eexists. eexists. split; [reflexivity|].
  split; [reflexivity|]. split; [lia | reflexivity].
Qed.

(** C4, amended: when the team list names two distinct teams and the
    batting team is one of them, the bowling team is the other; the bowling
    team is left unknown only when every entry of the team list equals the
    batting team, so that the list names fewer than two distinct teams. *)
Theorem bowling_team_inference (match_id : Z) (teams : pyval) (idx : Z)
    (entry : pyval) (row : Innings.t) (balls : list Delivery.t)
    (team_list : list pyval) :
  process_innings match_id teams idx entry = Ok (row, balls) ->
  Py.iter teams = Ok team_list ->
  (forall a b,
     team_list = [PStr a; PStr b] -> a <> b ->
     (Innings.batting_team row = PStr a -> Innings.bowling_team row = PStr b) /\
     (Innings.batting_team row = PStr b -> Innings.bowling_team row = PStr a)) /\
  (~ In PNone team_list ->
   (Innings.bowling_team row = PNone <->
    Forall (fun team => Py.eq team (Innings.batting_team row) = true)
      team_list)) /\
  (forall names,
     team_list = map PStr names ->
     Innings.bowling_team row = PNone ->
     forall x y, In x names -> In y names -> x = y) /\
  Forall (fun d => Delivery.bowling_team d = Innings.bowling_team row) balls.
Proof.
  intros H Hiter.
  apply process_innings_inv in H
    as (key & info & team_list' & deliveries & delivery_list & st & _ & _ & _ &
        Hiter' & Hbowling & _ & _ & Hloop & Hballs & _).
  rewrite Hiter in Hiter'. inversion Hiter'; subst team_list'.
  split; [|split; [|split]].
  - intros a b -> Hab. rewrite Hbowling. split; intros ->.
    + cbn [infer_bowling_team]. unfold Py.ne. cbn [Py.eq].
      rewrite String.eqb_refl. cbn [negb].
      destruct (String.eqb_spec b a); [congruence | reflexivity].
    + cbn [infer_bowling_team]. unfold Py.ne. cbn [Py.eq].
      destruct (String.eqb_spec a b); [congruence | reflexivity].
  - intros Hnone. rewrite Hbowling. now apply infer_bowling_team_none.
  - intros names -> Hunknown x y Hx Hy.
    rewrite Hbowling in Hunknown.
    apply infer_bowling_team_none in Hunknown.
    + rewrite Forall_forall in Hunknown.
      assert (Hx' := Hunknown (PStr x) (in_map PStr _ _ Hx)).
      assert (Hy' := Hunknown (PStr y) (in_map PStr _ _ Hy)).
      apply eq_PStr_inv in Hx', Hy'. congruence.
    + intros Hin. apply in_map_iff in Hin as (n & Hn & _). discriminate.
  - apply deliveries_loop_inv in Hloop as (rows & Hrows & _ & Hteams & _).
    cbn [Loop.init Loop.deliveries_data app] in Hrows.
    rewrite Hballs, Hrows.
    eapply Forall_impl; [|exact Hteams]. now intros d [_ ?].
Qed.

Lemma bowling_team_inference_witness :
  exists row balls,
    process_innings 1 Samples.two_teams 0
      (PDict [("1st innings", PDict Samples.plain_innings_info)])
    = Ok (row, balls) /\
    Innings.bowling_team row = PStr "MI".
Proof.
  eexists. eexists. split; [reflexivity|].
  destruct (bowling_team_inference 1 Samples.two_teams 0
              (PDict [("1st innings", PDict Samples.plain_innings_info)]) _ _
              [PStr "RCB"; PStr "MI"] eq_refl eq_refl)
    as (Hother & _).
  apply (Hother "RCB" "MI" eq_refl); [discriminate | reflexivity].
Defined.

(** ** Loading *)

Lemma extract_match_data_source_file (yaml_data : pyval) (source_file : string)
    (match_data : Match.t) :
  extract_match_data yaml_data source_file = Ok match_data ->
  Match.source_file match_data = source_file.
Proof.
  unfold extract_match_data. intros H.
  do 21 bind_inv H. inversion H. reflexivity.
Qed.

Section LoaderFacts.

Variable sch : schema.
Variable read_yaml : string -> result pyval.

(** The duplicate check stops a record whose key is stored before anything
    is written. *)
Lemma duplicate_returns_false (filepath : string) (yaml_data : pyval)
    (match_data : Match.t) (id : Z) (c : connection) :
  read_yaml filepath = Ok yaml_data ->
  extract_match_data yaml_data (basename filepath) = Ok match_data ->
  select_match_id (basename filepath) (matches (current c)) = Some id ->
  process_yaml_file sch read_yaml filepath c = (Ok false, c).
Proof.
  intros Hread Hextract Hstored.
  unfold process_yaml_file, process_yaml_body, db_bind, db_lift, db_ret.
  rewrite Hread.
  destruct (Py.truthy yaml_data); cbn [negb]; [|reflexivity].
  rewrite Hextract. unfold insert_match.
  rewrite (extract_match_data_source_file _ _ _ Hextract), Hstored.
  reflexivity.
Qed.

(** An unparseable or empty file makes [process_yaml_file] return [False]
    with the connection untouched. *)
Lemma malformed_returns_false (filepath : string) (c : connection) :
  read_yaml filepath = Raise YAMLError \/
  (exists yaml_data,
     read_yaml filepath = Ok yaml_data /\ Py.truthy yaml_data = false) ->
  process_yaml_file sch read_yaml filepath c = (Ok false, c).
Proof.
  unfold process_yaml_file, process_yaml_body, db_bind, db_lift, db_ret.
  intros [Hread | (yaml_data & Hread & Hempty)]; rewrite Hread.
  - reflexivity.
  - rewrite Hempty. reflexivity.
Qed.

Lemma process_one_false (filepath : string) (n : counts) (c : connection) :
  process_yaml_file sch read_yaml filepath c = (Ok false, c) ->
  process_one sch read_yaml filepath n c = (one_more_skipped n, c).
Proof.
  intros H. unfold process_one. rewrite H. reflexivity.
Qed.

End LoaderFacts.

(** C5: a record whose source identifier is already stored is not written
    again: the connection, and with it the number of matches, innings and
    deliveries, is unchanged, and the record is counted as skipped, not as
    failed and not as ingested. *)
Theorem duplicate_skipped (sch : schema) (read_yaml : string -> result pyval)
    (filepath : string) (yaml_data : pyval) (match_data : Match.t) (id : Z)
    (n : counts) (c : connection) :
  read_yaml filepath = Ok yaml_data ->
  extract_match_data yaml_data (basename filepath) = Ok match_data ->
  select_match_id (basename filepath) (matches (current c)) = Some id ->
  exists n' c',
    process_one sch read_yaml filepath n c = (n', c') /\
    c' = c /\
    List.length (matches (current c')) = List.length (matches (current c)) /\
    List.length (innings (current c')) = List.length (innings (current c)) /\
    List.length (ball_by_ball (current c'))
    = List.length (ball_by_ball (current c)) /\
    skip_count n' = skip_count n + 1 /\
    error_count n' = error_count n /\
    success_count n' = success_count n.
Proof.
  intros Hread Hextract Hstored.
  exists (one_more_skipped n), c. split.
  - apply process_one_false.
    eapply duplicate_returns_false; eassumption.
  - repeat split.
Qed.

Lemma duplicate_skipped_witness :
  exists n' c',
    process_one permissive Samples.files "data/match1.yaml" no_counts
      loaded_connection = (n', c') /\
    c' = loaded_connection /\
    skip_count n' = 1 /\ error_count n' = 0 /\ success_count n' = 0.
Proof.
  edestruct (duplicate_skipped permissive Samples.files "data/match1.yaml"
               Samples.match_record _ 1 no_counts loaded_connection
               eq_refl eq_refl eq_refl)
    as (n' & c' & Hstep & Hsame & _ & _ & _ & Hskip & Herr & Hok).
  exists n', c'. repeat split; assumption.
Defined.

(** *** Ingesting a record and processing it again *)

Section Reingest.

Variable sch : schema.
Variable read_yaml : string -> result pyval.

Lemma execute_batch_matches {A : Type} (stmt : A -> db unit) :
  (forall r c c', stmt r c = (Ok tt, c') ->
                  matches (current c') = matches (current c)) ->
  forall rows c c',
    execute_batch stmt rows c = (Ok tt, c') ->
    matches (current c') = matches (current c).
Proof.
  intros Hstmt rows. induction rows as [|r rows IH]; intros c c' H.
  - cbn in H. unfold db_ret in H. now inversion H.
  - cbn [execute_batch] in H. unfold db_bind in H.
    destruct (stmt r c) as [[[]|e] c1] eqn:E; [|discriminate].
    rewrite (IH _ _ H). eapply Hstmt. exact E.
Qed.

Lemma insert_player_matches (p : Player.t) (c c' : connection) :
  insert_player sch p c = (Ok tt, c') ->
  matches (current c') = matches (current c).
Proof.
  unfold insert_player.
  destruct (accepts_player sch (current c) p); [|discriminate].
  destruct (existsb (same_player p) (players (current c)));
    intros H; inversion H; reflexivity.
Qed.

Lemma insert_innings_row_matches (r : Innings.t) (c c' : connection) :
  insert_innings_row sch r c = (Ok tt, c') ->
  matches (current c') = matches (current c).
Proof.
  unfold insert_innings_row.
  destruct (accepts_innings sch (current c) r); [|discriminate].
  intros H; inversion H; reflexivity.
Qed.

Lemma insert_delivery_matches (r : Delivery.t) (c c' : connection) :
  insert_delivery sch r c = (Ok tt, c') ->
  matches (current c') = matches (current c).
Proof.
  unfold insert_delivery.
  destruct (accepts_delivery sch (current c) r); [|discriminate].
  intros H; inversion H; reflexivity.
Qed.

Lemma select_match_id_stored (source_file : string) (id : Z) (m : Match.t)
    (rows : list (Z * Match.t)) :
  In (id, m) rows -> Match.source_file m = source_file ->
  exists id', select_match_id source_file rows = Some id'.
Proof.
  intros Hin Hfile. induction rows as [|[id0 m0] rows IH]; [contradiction|].
  cbn [select_match_id].
  destruct (String.eqb (Match.source_file m0) source_file) eqn:E; [eauto|].
  destruct Hin as [Hhere | Hlater]; [|now apply IH].
  inversion Hhere; subst. rewrite String.eqb_refl in E. discriminate.
Qed.

(** A record that [process_yaml_file] ingests leaves its key in the
    matches table, under a header that extracts without error. *)
Lemma ingested_is_stored (filepath : string) (c c' : connection) :
  process_yaml_file sch read_yaml filepath c = (Ok true, c') ->
  exists yaml_data match_data id,
    read_yaml filepath = Ok yaml_data /\
    extract_match_data yaml_data (basename filepath) = Ok match_data /\
    select_match_id (basename filepath) (matches (current c')) = Some id.
Proof.
  unfold process_yaml_file.
  destruct (process_yaml_body sch read_yaml filepath c) as [[b|e] c0] eqn:E.
  2:{ destruct e; discriminate. }
  intros H. inversion H; subst b c0. clear H.
  unfold process_yaml_body, db_bind, db_lift, db_ret in E.
  destruct (read_yaml filepath) as [yaml_data|] eqn:Hread; [|discriminate].
  destruct (Py.truthy yaml_data); cbn [negb] in E; [|discriminate].
  destruct (extract_match_data yaml_data (basename filepath))
    as [match_data|] eqn:Hextract; [|discriminate].
  destruct (insert_match sch match_data c) as [[[id|]|] c1] eqn:Hinsert;
    try discriminate.
  destruct (extract_players yaml_data) as [players|]; [|discriminate].
  destruct (insert_players sch players c1) as [[[]|] c2] eqn:Hplayers;
    [|discriminate].
  destruct (info <- Py.get yaml_data "info" (PDict []);;
            Py.get info "teams" (PList [])) as [teams|]; [|discriminate].
  destruct (extract_innings_and_deliveries yaml_data id teams)
    as [extracted|]; [|discriminate].
  destruct (insert_innings sch (fst extracted) c2) as [[[]|] c3] eqn:Hinnings;
    [|discriminate].
  destruct (insert_deliveries sch (snd extracted) c3) as [[[]|] c4]
    eqn:Hdeliveries; [|discriminate].
  inversion E; subst c4. clear E.
  apply (execute_batch_matches _ (insert_player_matches)) in Hplayers.
  apply (execute_batch_matches _ (insert_innings_row_matches)) in Hinnings.
  apply (execute_batch_matches _ (insert_delivery_matches)) in Hdeliveries.
  assert (Hin : In (id, match_data) (matches (current c1))).
  { unfold insert_match in Hinsert.
    destruct (select_match_id _ _); [discriminate|].
    destruct (accepts_match _ _ _); [|discriminate].
    inversion Hinsert; subst. cbn. apply in_or_app. right. now left. }
  rewrite Hdeliveries, Hinnings, Hplayers.
  destruct (select_match_id_stored (basename filepath) _ _ _ Hin
              (extract_match_data_source_file _ _ _ Hextract)) as (id' & Hid).
  exists yaml_data, match_data, id'. now repeat split.
Qed.

(** Processing a record right after it has been ingested and committed
    skips it and leaves the connection as it is. *)
Lemma reingest_skipped (filepath : string) (n : counts) (c c' : connection) :
  process_yaml_file sch read_yaml filepath c = (Ok true, c') ->
  process_one sch read_yaml filepath n (commit c')
  = (one_more_skipped n, commit c').
Proof.
  intros H. apply ingested_is_stored in H
    as (yaml_data & match_data & id & Hread & Hextract & Hstored).
  apply process_one_false.
  eapply duplicate_returns_false; eassumption.
Qed.

End Reingest.

(** C6, the code at the failing inputs: in a batch of an unparseable file,
    an empty file and a well-formed match, the first two records are counted
    as skipped and none as failed; the batch goes on and ingests the third. *)
Theorem malformed_counted_skipped :
  fst (files_loop permissive Samples.files
         ["data/broken.yaml"; "data/empty.yaml"; "data/match1.yaml"]
         no_counts fresh_connection)
  = {| success_count := 1; skip_count := 2; error_count := 0 |}.
Proof. vm_compute. reflexivity. Qed.

(** ** Field accessor *)

Lemma safe_get_from_default (keys : list string) (default : pyval) :
  Py.is_dict default = false -> safe_get default keys default = default.
Proof.
  intros Hplain. unfold safe_get.
  destruct keys as [|key keys]; cbn [safe_get_loop];
    destruct default; try reflexivity; discriminate.
Qed.

(** With a default that is not a mapping the accessor behaves as the
    specification words it. *)
Lemma safe_get_plain_default (keys : list string) (default : pyval) :
  Py.is_dict default = false ->
  forall data, safe_get data keys default = safe_get_spec data keys default.
Proof.
  intros Hplain. induction keys as [|key keys IH]; intros data.
  - reflexivity.
  - cbn [safe_get_spec]. destruct data; try reflexivity.
    change (safe_get (PDict entries) (key :: keys) default)
      with (safe_get (match Py.dict_lookup key entries with
                      | Some v => v | None => default end) keys default).
    destruct (Py.dict_lookup key entries) as [v|].
    + apply IH.
    + now apply safe_get_from_default.
Qed.

(** C9, the code at the failing input: with a mapping as default, an
    absent key does not end the traversal; the remaining keys are looked up
    in the default, and the value found there is returned instead of the
    default. *)
Theorem safe_get_descends_into_default :
  safe_get (PDict []) ["a"; "b"] (PDict [("b", PInt 1)]) = PInt 1 /\
  safe_get_spec (PDict []) ["a"; "b"] (PDict [("b", PInt 1)])
  = PDict [("b", PInt 1)].
Proof. split; reflexivity. Qed.

(** * Further properties of the extraction and loading code *)

(** ** Field accessor, continued *)

Lemma safe_get_loop_returned (keys : list string) (default : pyval) :
  forall data returned,
    safe_get_loop data keys default = inr returned -> returned = default.
Proof.
  induction keys as [|key keys IH]; intros data returned H.
  - discriminate H.
  - cbn [safe_get_loop] in H. destruct data; try (now inversion H).
    eapply IH. exact H.
Qed.

(** X1: the accessor yields [None] only when the default is [None]: a
    null reached in the record, at any depth, is replaced by the default. *)
Theorem safe_get_null_only_by_default (data : pyval) (keys : list string)
    (default : pyval) :
  default <> PNone -> safe_get data keys default <> PNone.
Proof.
  intros Hdefault. unfold safe_get.
  destruct (safe_get_loop data keys default) as [result | returned] eqn:E.
  - destruct result; try discriminate. exact Hdefault.
  - apply safe_get_loop_returned in E. now subst.
Qed.

Lemma safe_get_null_only_by_default_witness :
  safe_get (PDict [("toss", PDict [("winner", PNone)])]) ["toss"; "winner"]
    (PStr "unknown") <> PNone.
Proof.
  apply safe_get_null_only_by_default. discriminate.
Defined.

(** X2: with a default that is not a mapping, the accessor returns the value
    reached by indexing mapping after mapping, and the default as soon as a
    key is absent, an intermediate value is not a mapping, or the value
    reached is [None]. *)
Theorem safe_get_meets_contract (data : pyval) (keys : list string)
    (default : pyval) :
  Py.is_dict default = false ->
  safe_get data keys default = safe_get_spec data keys default.
Proof.
  intros Hplain. revert data.
  induction keys as [|key keys IH]; intros data.
  - reflexivity.
  - cbn [safe_get_spec]. destruct data; try reflexivity.
    change (safe_get (PDict entries) (key :: keys) default)
      with (safe_get (match Py.dict_lookup key entries with
                      | Some v => v | None => default end) keys default).
    destruct (Py.dict_lookup key entries) as [v|].
    + apply IH.
    + now apply safe_get_from_default.
Qed.

Lemma safe_get_meets_contract_witness :
  safe_get Samples.match_record ["info"; "toss"; "winner"] PNone
  = safe_get_spec Samples.match_record ["info"; "toss"; "winner"] PNone.
Proof.
  apply safe_get_meets_contract. reflexivity.
Defined.

(** ** Delivery rows, continued *)

Lemma or_zero_not_none (v : pyval) : Py.or v (PInt 0) <> PNone.
Proof.
  unfold Py.or. destruct v; cbn; try discriminate.
  - destruct b; discriminate.
  - destruct (n =? 0); discriminate.
  - destruct (String.eqb s EmptyString); discriminate.
  - destruct items; discriminate.
  - destruct entries; discriminate.
Qed.

Lemma or_or_zero_not_none (v w : pyval) : Py.or (Py.or v w) (PInt 0) <> PNone.
Proof. apply or_zero_not_none. Qed.

(** The columns of the row one pass through the loop body appends, beyond
    those the flags are computed from. *)
Lemma process_delivery_columns (match_id innings_number : Z)
    (batting_team bowling_team : pyval) (st st' : Loop.state) (entry : pyval) :
  process_delivery match_id innings_number batting_team bowling_team st entry
  = Ok st' ->
  exists d,
    Loop.deliveries_data st' = (Loop.deliveries_data st ++ [d])%list /\
    Delivery.match_id d = match_id /\
    Delivery.innings_number d = innings_number /\
    Delivery.batting_team d = batting_team /\
    Delivery.bowling_team d = bowling_team /\
    Delivery.phase d = get_phase (Delivery.over_number d) /\
    Delivery.runs_batter d <> PNone /\
    Delivery.runs_extras d <> PNone /\
    Delivery.runs_total d <> PNone /\
    Delivery.extras_wides d <> PNone /\
    Delivery.extras_noballs d <> PNone /\
    Delivery.extras_byes d <> PNone /\
    Delivery.extras_legbyes d <> PNone /\
    Delivery.extras_penalty d <> PNone.
Proof.
  unfold process_delivery. intros H.
  bind_as H key Hkey. bind_as H delivery Hdelivery.
  bind_as H ob Hparse. destruct ob as [over_num ball_num].
  bind_as H runs Hruns.
  bind_as H batsman Hbatsman. bind_as H batter Hbatter.
  bind_as H r_extras Hextras. bind_as H r_total Htotal.
  bind_as H total_runs Hsum. bind_as H total_extras Hsumx.
  do 6 bind_inv H.
  bind_as H wk Hwk.
  destruct wk as [[[is_wicket wicket_type] player_dismissed] fielder].
  do 4 bind_inv H.
  inversion H; subst; clear H. cbn.
  eexists. split; [reflexivity|]. cbn.
  repeat split;
    first [apply or_or_zero_not_none | apply or_zero_not_none].
Qed.



Lemma eq_four_six (v : pyval) :
  (Py.eq v (PInt 4) && Py.eq v (PInt 6))%bool = false.
Proof.
  destruct v; try reflexivity.
  - destruct b; reflexivity.
  - cbn [Py.eq]. destruct (Z.eqb_spec n 4); [subst; reflexivity | reflexivity].
Qed.

(** X4: no extracted delivery is both a four and a six, so it is a boundary
    exactly when one of the two flags is set; a dot ball is always legal. *)
Theorem four_six_exclusive (match_id innings_number : Z)
    (batting_team bowling_team : pyval) (st st' : Loop.state) (entry : pyval) :
  process_delivery match_id innings_number batting_team bowling_team st entry
  = Ok st' ->
  exists d,
    Loop.deliveries_data st' = (Loop.deliveries_data st ++ [d])%list /\
    (Delivery.is_four d && Delivery.is_six d)%bool = false /\
    Delivery.is_boundary d = xorb (Delivery.is_four d) (Delivery.is_six d) /\
    (Delivery.is_dot_ball d = true -> Delivery.is_legal_delivery d = true).
Proof.
  intros H. apply process_delivery_inv in H
    as (key & delivery & runs & batsman & batter & d & _ & _ & _ & _ & _ & _ &
        _ & Hrows & _ & _ & _ & _ & _ & _ & _ & _ & _ & Hfour & Hsix &
        Hboundary & Hdot & _).
  exists d. split; [exact Hrows|].
  pose proof (eq_four_six (Delivery.runs_batter d)) as Hex.
  rewrite <- Hfour, <- Hsix in Hex.
  split; [exact Hex|]. split.
  - rewrite Hboundary.
    destruct (Delivery.is_four d), (Delivery.is_six d);
      try reflexivity; discriminate Hex.
  - rewrite Hdot. now intros [_ ?]%andb_prop.
Qed.

Lemma four_six_exclusive_witness :
  exists st',
    process_delivery 1 1 (PStr "RCB") (PStr "MI") Loop.init Samples.four_entry
    = Ok st' /\
    exists d,
      Loop.deliveries_data st' = [d] /\
      (Delivery.is_four d && Delivery.is_six d)%bool = false.
Proof.
  eexists. split; [reflexivity|].
  destruct (four_six_exclusive 1 1 (PStr "RCB") (PStr "MI") Loop.init _
              Samples.four_entry eq_refl)
    as (d & Hrows & Hex & _).
  exists d. split; [exact Hrows | exact Hex].
Defined.

(** X5: a delivery whose mapping is empty is still recorded: participants
    and wicket detail are [None], every run and extras column is 0, and the
    row is flagged as a legal dot ball; the running totals do not move. *)
Theorem bare_delivery_recorded (match_id innings_number : Z)
    (batting_team bowling_team : pyval) (st : Loop.state) (key : string)
    (more : list (string * pyval)) (over_num ball_num : Z) :
  parse_over_ball key = Ok (over_num, ball_num) ->
  process_delivery match_id innings_number batting_team bowling_team st
    (PDict ((key, PDict []) :: more))
  = Ok {| Loop.total_runs := Loop.total_runs st;
          Loop.total_wickets := Loop.total_wickets st;
          Loop.total_extras := Loop.total_extras st;
          Loop.last_over := over_num;
          Loop.last_ball := ball_num;
          Loop.deliveries_data :=
            (Loop.deliveries_data st ++
             [bare_row match_id innings_number batting_team bowling_team
                over_num ball_num])%list |}.
Proof.
  intros Hparse. unfold process_delivery.
  rewrite first_key_cons. cbn [bind].
  rewrite getitem_first. cbn [bind].
  rewrite Hparse. cbn.
  rewrite !Z.add_0_r. reflexivity.
Qed.

Lemma bare_delivery_recorded_witness :
  exists st',
    process_delivery 1 1 (PStr "RCB") (PStr "MI") Loop.init
      (PDict [("7.2", PDict [])]) = Ok st' /\
    Loop.deliveries_data st' = [bare_row 1 1 (PStr "RCB") (PStr "MI") 7 2].
Proof.
  eexists. split.
  - exact (bare_delivery_recorded 1 1 (PStr "RCB") (PStr "MI") Loop.init
             "7.2" [] 7 2 eq_refl).
  - reflexivity.
Defined.

(** ** Over/ball key parser, continued *)

Lemma py_split_after_label (s r : string) :
  Text.label_chars s = true ->
  Text.py_split "." (s ++ "." ++ r)
  = (s, fst (Text.py_split "." r) :: snd (Text.py_split "." r)).
Proof.
  intros Hs. induction s as [|c s IH].
  - cbn [append Text.py_split].
    destruct (Text.py_split "." r) as [h t]. reflexivity.
  - cbn [Text.label_chars] in Hs. apply andb_prop in Hs as [Hc Hs].
    change ((String c s ++ "." ++ r)) with (String c (s ++ "." ++ r)).
    cbn [Text.py_split]. rewrite (IH Hs).
    now rewrite (TextFacts.label_char_not_dot _ Hc).
Qed.

(** X6: only the first two components of a label count: whatever follows
    a second point is ignored, so "1.2.3" parses as "1.2" does. *)
Theorem parse_over_ball_ignores_third_part (s t u : string) :
  Text.label_chars s = true -> Text.label_chars t = true ->
  parse_over_ball (s ++ "." ++ t ++ "." ++ u) = parse_over_ball (s ++ "." ++ t).
Proof.
  intros Hs Ht. unfold parse_over_ball.
  rewrite (py_split_after_label s (t ++ "." ++ u) Hs).
  rewrite (py_split_after_label t u Ht).
  rewrite (TextFacts.py_split_label _ _ Hs Ht).
  reflexivity.
Qed.

Lemma parse_over_ball_ignores_third_part_witness :
  parse_over_ball ("1" ++ "." ++ "2" ++ "." ++ "x") = Ok (1, 2).
Proof.
  rewrite (parse_over_ball_ignores_third_part "1" "2" "x" eq_refl eq_refl).
  reflexivity.
Defined.

(** ** Match header *)

(** The header dictionary in terms of the parts of the record it is read
    from. *)
Lemma extract_match_data_inv (yaml_data : pyval) (source_file : string)
    (m : Match.t) :
  extract_match_data yaml_data source_file = Ok m ->
  exists info dates outcome win_by by_runs by_wickets teams n,
    Py.get yaml_data "info" (PDict []) = Ok info /\
    Py.get info "dates" (PList []) = Ok dates /\
    (if Py.truthy dates then Py.index dates 0 else Ok PNone)
    = Ok (Match.match_date m) /\
    (if Py.truthy (Match.match_date m) then
       match Match.match_date m with
       | PStr s => y <- Text.py_int (fst (Text.py_split "-" s)) ;; Ok (PInt y)
       | PDate y _ _ => Ok (PInt y)
       | _ => Ok PNone
       end
     else Ok PNone) = Ok (Match.season m) /\
    Py.get info "outcome" (PDict []) = Ok outcome /\
    Py.get outcome "winner" PNone = Ok (Match.winner m) /\
    Py.get outcome "by" (PDict []) = Ok win_by /\
    Py.get win_by "runs" (PInt 0) = Ok by_runs /\
    Match.win_by_runs m = Py.or by_runs (PInt 0) /\
    Py.get win_by "wickets" (PInt 0) = Ok by_wickets /\
    Match.win_by_wickets m = Py.or by_wickets (PInt 0) /\
    (if Py.has_key outcome "result" then Py.getitem outcome "result"
     else if negb (Py.truthy (Match.winner m)) then Ok (PStr "no result")
     else Ok (PStr "normal")) = Ok (Match.result_type m) /\
    Py.get info "teams" (PList []) = Ok teams /\
    Py.len teams = Ok n /\
    (if n >? 0 then Py.index teams 0 else Ok PNone) = Ok (Match.team1 m) /\
    (if n >? 1 then Py.index teams 1 else Ok PNone) = Ok (Match.team2 m) /\
    Match.source_file m = source_file.
Proof.
  unfold extract_match_data. intros H.
  bind_as H info Hinfo. bind_as H dates Hdates. bind_as H match_date Hdate.
  bind_as H season Hseason. bind_as H outcome Houtcome.
  bind_as H winner Hwinner. bind_as H win_by Hby.
  bind_as H by_runs Hruns. bind_as H by_wickets Hwickets.
  bind_as H result_type Hresult. bind_as H teams Hteams.
  bind_as H n1 Hn1. bind_as H team1 Hteam1.
  bind_as H n2 Hn2. bind_as H team2 Hteam2.
  do 6 bind_inv H.
  rewrite Hn1 in Hn2. inversion Hn2; subst n2.
  inversion H; subst; clear H. cbn.
  exists info, dates, outcome, win_by, by_runs, by_wickets, teams, n1.
  repeat split; assumption.
Qed.

(** X7: a record without header fields still yields a match dictionary:
    format 'T20', competition 'IPL', venue 'Unknown', result 'no result',
    both win margins 0 and every other field [None]. *)
Theorem headerless_match_defaults (yaml_data : pyval) (source_file : string) :
  Py.get yaml_data "info" (PDict []) = Ok (PDict []) ->
  extract_match_data yaml_data source_file = Ok (default_match source_file).
Proof.
  intros Hinfo. unfold extract_match_data. rewrite Hinfo. reflexivity.
Qed.

Lemma headerless_match_defaults_witness :
  extract_match_data (PDict [("innings", PList [])]) "match9.yaml"
  = Ok (default_match "match9.yaml").
Proof.
  exact (headerless_match_defaults (PDict [("innings", PList [])])
           "match9.yaml" eq_refl).
Defined.

(** X8: the match date is the first listed date and the season its year:
    the year field of a date, or the integer before the first hyphen of a
    string; without dates both are [None]. *)
Theorem season_from_first_date (yaml_data : pyval) (source_file : string)
    (m : Match.t) (info : pyval) (listed : list pyval) :
  extract_match_data yaml_data source_file = Ok m ->
  Py.get yaml_data "info" (PDict []) = Ok info ->
  Py.get info "dates" (PList []) = Ok (PList listed) ->
  Match.match_date m = hd PNone listed /\
  (listed = [] -> Match.season m = PNone) /\
  (forall y mo d, hd_error listed = Some (PDate y mo d) ->
                  Match.season m = PInt y) /\
  (forall s, hd_error listed = Some (PStr s) -> s <> EmptyString ->
             exists y, Text.py_int (fst (Text.py_split "-" s)) = Ok y /\
                       Match.season m = PInt y).
Proof.
  intros H Hinfo Hdates.
  apply extract_match_data_inv in H
    as (info' & dates & outcome & win_by & by_runs & by_wickets & teams & n &
        Hinfo' & Hdates' & Hdate & Hseason & _).
  rewrite Hinfo in Hinfo'. inversion Hinfo'; subst info'.
  rewrite Hdates in Hdates'. inversion Hdates'; subst dates.
  destruct listed as [|first more].
  - cbn in Hdate. injection Hdate as Hnone.
    rewrite <- Hnone in Hseason. cbn in Hseason.
    split; [now symmetry|]. split; [congruence|].
    split; intros; discriminate.
  - cbn in Hdate. injection Hdate as Hfirst.
    rewrite <- Hfirst in Hseason. cbn [hd hd_error].
    split; [now symmetry|]. split; [discriminate|]. split.
    + intros y mo d Hd. injection Hd as ->.
      cbn in Hseason. congruence.
    + intros s Hs Hne. injection Hs as ->.
      cbn [Py.truthy] in Hseason.
      destruct (String.eqb_spec s EmptyString) as [->|_]; [contradiction|].
      cbn [negb] in Hseason.
      bind_as Hseason y Hy. exists y. split; [exact Hy|].
      congruence.
Qed.

Lemma season_from_first_date_witness :
  exists m,
    extract_match_data Samples.match_record "match1.yaml" = Ok m /\
    Match.match_date m = PDate 2025 4 7 /\ Match.season m = PInt 2025.
Proof.
  eexists. split; [reflexivity|].
  destruct (season_from_first_date Samples.match_record "match1.yaml" _ _
              [PDate 2025 4 7] eq_refl eq_refl eq_refl)
    as (Hdate & _ & Hyear & _).
  split; [exact Hdate | exact (Hyear 2025 4 7 eq_refl)].
Defined.

(** X9: the result type is the outcome's 'result' entry when there is
    one; otherwise 'no result' when no winner is recorded and 'normal' when
    one is.  Neither win margin is ever [None]. *)
Theorem result_type_classified (yaml_data : pyval) (source_file : string)
    (m : Match.t) (info : pyval) (outcome : list (string * pyval)) :
  extract_match_data yaml_data source_file = Ok m ->
  Py.get yaml_data "info" (PDict []) = Ok info ->
  Py.get info "outcome" (PDict []) = Ok (PDict outcome) ->
  (forall r, Py.dict_lookup "result" outcome = Some r ->
             Match.result_type m = r) /\
  (Py.dict_lookup "result" outcome = None ->
   Py.truthy (Match.winner m) = false ->
   Match.result_type m = PStr "no result") /\
  (Py.dict_lookup "result" outcome = None ->
   Py.truthy (Match.winner m) = true ->
   Match.result_type m = PStr "normal") /\
  Match.win_by_runs m <> PNone /\ Match.win_by_wickets m <> PNone.
Proof.
  intros H Hinfo Houtcome.
  apply extract_match_data_inv in H
    as (info' & dates & outcome' & win_by & by_runs & by_wickets & teams & n &
        Hinfo' & _ & _ & _ & Houtcome' & _ & _ & _ & Hruns & _ & Hwickets &
        Hresult & _).
  rewrite Hinfo in Hinfo'. inversion Hinfo'; subst info'.
  rewrite Houtcome in Houtcome'. inversion Houtcome'; subst outcome'.
  cbn [Py.has_key Py.getitem] in Hresult.
  rewrite Hruns, Hwickets.
  repeat split; try apply or_zero_not_none.
  - intros r Hr. rewrite Hr in Hresult. now inversion Hresult.
  - intros Hnone Hwinner. rewrite Hnone, Hwinner in Hresult.
    now inversion Hresult.
  - intros Hnone Hwinner. rewrite Hnone, Hwinner in Hresult.
    now inversion Hresult.
Qed.

Lemma result_type_classified_witness :
  exists m,
    extract_match_data Samples.match_record "match1.yaml" = Ok m /\
    Match.result_type m = PStr "normal".
Proof.
  eexists. split; [reflexivity|].
  destruct (result_type_classified Samples.match_record "match1.yaml" _ _
              [("by", PDict [("runs", PInt 12)]); ("winner", PStr "RCB")]
              eq_refl eq_refl eq_refl)
    as (_ & _ & Hnormal & _).
  apply Hnormal; reflexivity.
Defined.

(** X10: team1 and team2 are the first and the second entry of the team
    list, in the order the record lists them, and [None] where the list is
    too short. *)
Theorem teams_in_listed_order (yaml_data : pyval) (source_file : string)
    (m : Match.t) (info : pyval) (listed : list pyval) :
  extract_match_data yaml_data source_file = Ok m ->
  Py.get yaml_data "info" (PDict []) = Ok info ->
  Py.get info "teams" (PList []) = Ok (PList listed) ->
  Match.team1 m = nth 0 listed PNone /\ Match.team2 m = nth 1 listed PNone.
Proof.
  intros H Hinfo Hteams.
  apply extract_match_data_inv in H
    as (info' & dates & outcome & win_by & by_runs & by_wickets & teams & n &
        Hinfo' & _ & _ & _ & _ & _ & _ & _ & _ & _ & _ & _ & Hteams' & Hn &
        Hteam1 & Hteam2 & _).
  rewrite Hinfo in Hinfo'. inversion Hinfo'; subst info'.
  rewrite Hteams in Hteams'. inversion Hteams'; subst teams.
  cbn [Py.len] in Hn. inversion Hn; subst n.
  destruct listed as [|a [|b more]].
  - cbn in Hteam1, Hteam2 |- *. split; congruence.
  - cbn in Hteam1, Hteam2 |- *. split; congruence.
  - assert (H1 : (Z.of_nat (List.length (a :: b :: more)) >? 0) = true)
      by (apply Z.gtb_lt; cbn [List.length]; lia).
    assert (H2 : (Z.of_nat (List.length (a :: b :: more)) >? 1) = true)
      by (apply Z.gtb_lt; cbn [List.length]; lia).
    rewrite H1 in Hteam1. rewrite H2 in Hteam2.
    cbn [Py.index nth_error] in Hteam1, Hteam2. cbn [nth].
    split; congruence.
Qed.

Lemma teams_in_listed_order_witness :
  exists m,
    extract_match_data Samples.match_record "match1.yaml" = Ok m /\
    Match.team1 m = PStr "RCB" /\ Match.team2 m = PStr "MI".
Proof.
  eexists. split; [reflexivity|].
  exact (teams_in_listed_order Samples.match_record "match1.yaml" _ _
           [PStr "RCB"; PStr "MI"] eq_refl eq_refl eq_refl).
Defined.

(** ** Rosters *)

Lemma rosters_of_lists (entries : list (string * pyval)) :
  Forall (fun entry => Py.is_list (snd entry) = true) entries ->
  rosters entries = Ok (flat_map roster_of entries).
Proof.
  induction 1 as [|[team player_list] entries Hlist _ IH].
  - reflexivity.
  - cbn [rosters flat_map]. rewrite IH.
    destruct player_list; try discriminate Hlist. reflexivity.
Qed.

Lemma rosters_raise (entries : list (string * pyval)) (team : string)
    (player_list : pyval) :
  In (team, player_list) entries ->
  Py.iter player_list = Raise TypeError ->
  exists e, rosters entries = Raise e.
Proof.
  intros Hin Hraise. induction entries as [|[team0 list0] entries IH];
    [contradiction|].
  cbn [rosters]. unfold roster.
  destruct Hin as [Hhere | Hlater].
  - inversion Hhere; subst. rewrite Hraise. cbn. eauto.
  - destruct (Py.iter list0) as [names|e]; cbn [bind]; [|eauto].
    destruct (IH Hlater) as (e & ->). cbn. eauto.
Qed.

(** X11: when every roster is a list, the players are the rosters laid end
    to end: one (player, team) pair per roster entry, teams in the order of
    the mapping, players in the order of their roster, duplicates kept.  A
    roster that cannot be iterated, such as a team listed with no players at
    all, makes the extraction raise. *)
Theorem players_flattened (yaml_data info : pyval)
    (entries : list (string * pyval)) :
  Py.get yaml_data "info" (PDict []) = Ok info ->
  Py.get info "players" (PDict []) = Ok (PDict entries) ->
  (Forall (fun entry => Py.is_list (snd entry) = true) entries ->
   extract_players yaml_data = Ok (flat_map roster_of entries)) /\
  (forall team player_list,
     In (team, player_list) entries ->
     Py.iter player_list = Raise TypeError ->
     exists e, extract_players yaml_data = Raise e).
Proof.
  intros Hinfo Hplayers. unfold extract_players.
  rewrite Hinfo. cbn [bind]. rewrite Hplayers. cbn [bind Py.items].
  split.
  - apply rosters_of_lists.
  - apply rosters_raise.
Qed.

Lemma players_flattened_witness :
  extract_players Samples.match_record
  = Ok [ {| Player.player_name := PStr "V Kohli"; Player.team := "RCB" |};
         {| Player.player_name := PStr "PD Salt"; Player.team := "RCB" |};
         {| Player.player_name := PStr "JJ Bumrah"; Player.team := "MI" |} ].
Proof.
  destruct (players_flattened Samples.match_record _
              [("RCB", PList [PStr "V Kohli"; PStr "PD Salt"]);
               ("MI", PList [PStr "JJ Bumrah"])] eq_refl eq_refl)
    as (Hflat & _).
  apply Hflat. repeat constructor.
Defined.

(** ** Innings and their deliveries *)

Lemma deliveries_loop_columns (match_id innings_number : Z)
    (batting_team bowling_team : pyval) (entries : list pyval) :
  forall st st',
    deliveries_loop match_id innings_number batting_team bowling_team st entries
    = Ok st' ->
    exists rows,
      Loop.deliveries_data st' = (Loop.deliveries_data st ++ rows)%list /\
      Forall (fun d => Delivery.match_id d = match_id /\
                       Delivery.innings_number d = innings_number /\
                       Delivery.batting_team d = batting_team /\
                       Delivery.bowling_team d = bowling_team /\
                       Delivery.phase d = get_phase (Delivery.over_number d))
        rows.
Proof.
  induction entries as [|entry later IH]; intros st st' H.
  - cbn in H. inversion H; subst. exists []. rewrite app_nil_r.
    split; [reflexivity | constructor].
  - cbn [deliveries_loop] in H. bind_as H st1 Hstep.
    apply process_delivery_columns in Hstep
      as (d & Hrows & Hid & Hinn & Hbt & Hbw & Hphase & _).
    destruct (IH _ _ H) as (rows & Hrows' & Hall).
    exists (d :: rows). rewrite Hrows', Hrows, <- app_assoc.
    split; [reflexivity|]. constructor; [now repeat split | assumption].
Qed.

Lemma process_innings_ids (match_id : Z) (teams : pyval) (idx : Z)
    (entry : pyval) (row : Innings.t) (balls : list Delivery.t) :
  process_innings match_id teams idx entry = Ok (row, balls) ->
  Innings.match_id row = match_id /\
  Innings.innings_number row = idx + 1 /\
  Forall (fun d => Delivery.match_id d = match_id /\
                   Delivery.innings_number d = Innings.innings_number row /\
                   Delivery.batting_team d = Innings.batting_team row /\
                   Delivery.bowling_team d = Innings.bowling_team row /\
                   Delivery.phase d = get_phase (Delivery.over_number d))
    balls.
Proof.
  unfold process_innings. intros H.
  bind_as H key Hkey. bind_as H info Hinfo. bind_as H bt Hbt.
  bind_as H team_list Hteams. bind_as H deliveries Hdv.
  bind_as H delivery_list Hdl. bind_as H st Hloop. bind_as H overs Hovers.
  inversion H; subst; clear H. cbn.
  split; [reflexivity|]. split; [reflexivity|].
  apply deliveries_loop_columns in Hloop as (rows & Hrows & Hall).
  cbn [Loop.init Loop.deliveries_data app] in Hrows. now rewrite Hrows.
Qed.

(** The rows of the innings loop, with the position the loop started from. *)
Lemma innings_loop_rows (match_id : Z) (teams : pyval)
    (entries : list pyval) :
  forall idx rows balls,
    innings_loop match_id teams idx entries = Ok (rows, balls) ->
    List.length rows = List.length entries /\
    (forall k row, nth_error rows k = Some row ->
       Innings.innings_number row = idx + Z.of_nat k + 1 /\
       Innings.match_id row = match_id) /\
    Forall (fun d =>
              Delivery.match_id d = match_id /\
              Delivery.phase d = get_phase (Delivery.over_number d) /\
              exists row,
                In row rows /\
                Innings.match_id row = Delivery.match_id d /\
                Innings.innings_number row = Delivery.innings_number d /\
                Innings.batting_team row = Delivery.batting_team d /\
                Innings.bowling_team row = Delivery.bowling_team d)
      balls.
Proof.
  induction entries as [|entry later IH]; intros idx rows balls H.
  - cbn in H. inversion H; subst.
    split; [reflexivity|]. split; [|constructor].
    intros [|k] row Hk; discriminate Hk.
  - cbn [innings_loop] in H. bind_as H first Hfirst.
    destruct first as [row0 balls0]. bind_as H others Hothers.
    destruct others as [rows1 balls1]. inversion H; subst; clear H.
    apply process_innings_ids in Hfirst as (Hid & Hnum & Hballs).
    destruct (IH _ _ _ Hothers) as (Hlen & Hnth & Hrefs).
    split; [cbn [List.length]; now rewrite Hlen|]. split.
    + intros [|k] row Hk; cbn [nth_error] in Hk.
      * inversion Hk; subst row. split; [lia | exact Hid].
      * destruct (Hnth _ _ Hk) as [Hn Hm]. split; [lia | exact Hm].
    + apply Forall_app. split.
      * eapply Forall_impl; [|exact Hballs].
        intros d (Hd1 & Hd2 & Hd3 & Hd4 & Hd5).
        split; [exact Hd1|]. split; [exact Hd5|].
        exists row0. split; [now left|].
        repeat split; congruence.
      * eapply Forall_impl; [|exact Hrefs].
        intros d (Hd1 & Hd2 & row & Hin & Hrest).
        split; [exact Hd1|]. split; [exact Hd2|].
        exists row. split; [now right | exact Hrest].
Qed.

(** X12: the innings rows are numbered 1, 2, ... in the order of the
    record's innings list, one row per entry, each carrying the match
    identifier; a record without an innings list yields no row. *)
Theorem innings_numbered_in_order (yaml_data : pyval) (match_id : Z)
    (teams : pyval) (rows : list Innings.t) (balls : list Delivery.t) :
  extract_innings_and_deliveries yaml_data match_id teams = Ok (rows, balls) ->
  exists innings_list entries,
    Py.get yaml_data "innings" (PList []) = Ok innings_list /\
    Py.iter innings_list = Ok entries /\
    List.length rows = List.length entries /\
    (forall k row, nth_error rows k = Some row ->
       Innings.innings_number row = Z.of_nat k + 1 /\
       Innings.match_id row = match_id) /\
    (innings_list = PList [] -> rows = [] /\ balls = []).
Proof.
  unfold extract_innings_and_deliveries. intros H.
  bind_as H innings_list Hget. bind_as H entries Hiter.
  exists innings_list, entries.
  split; [exact Hget|]. split; [exact Hiter|].
  destruct (innings_loop_rows _ _ _ _ _ _ H) as (Hlen & Hnth & _).
  split; [exact Hlen|]. split; [exact Hnth|].
  intros ->. cbn in Hiter. inversion Hiter; subst entries.
  cbn in H. now inversion H.
Qed.

Lemma innings_numbered_in_order_witness :
  exists rows balls,
    extract_innings_and_deliveries Samples.match_record 7 Samples.two_teams
    = Ok (rows, balls) /\
    map Innings.innings_number rows = [1; 2] /\
    map Innings.match_id rows = [7; 7].
Proof.
  eexists. eexists. split; [reflexivity|].
  destruct (innings_numbered_in_order Samples.match_record 7 Samples.two_teams
              _ _ eq_refl)
    as (innings_list & entries & _ & _ & _ & Hnth & _).
  destruct (Hnth 0%nat _ eq_refl) as [H1 Hm1].
  destruct (Hnth 1%nat _ eq_refl) as [H2 Hm2].
  cbn [map]. rewrite H1, H2, Hm1, Hm2. split; reflexivity.
Defined.

(** X13: every delivery row carries the match identifier, a phase computed
    from its own over number, and the innings number, batting team and
    bowling team of an innings row of the same extraction. *)
Theorem deliveries_reference_innings (yaml_data : pyval) (match_id : Z)
    (teams : pyval) (rows : list Innings.t) (balls : list Delivery.t) :
  extract_innings_and_deliveries yaml_data match_id teams = Ok (rows, balls) ->
  Forall (fun d =>
            Delivery.match_id d = match_id /\
            Delivery.phase d = get_phase (Delivery.over_number d) /\
            exists row,
              In row rows /\
              Innings.match_id row = Delivery.match_id d /\
              Innings.innings_number row = Delivery.innings_number d /\
              Innings.batting_team row = Delivery.batting_team d /\
              Innings.bowling_team row = Delivery.bowling_team d)
    balls.
Proof.
  unfold extract_innings_and_deliveries. intros H.
  bind_as H innings_list Hget. bind_as H entries Hiter.
  now destruct (innings_loop_rows _ _ _ _ _ _ H) as (_ & _ & Hrefs).
Qed.

Lemma deliveries_reference_innings_witness :
  exists rows balls,
    extract_innings_and_deliveries Samples.match_record 7 Samples.two_teams
    = Ok (rows, balls) /\
    List.length balls = 2%nat /\
    Forall (fun d => Delivery.match_id d = 7) balls.
Proof.
  eexists. eexists. split; [reflexivity|]. split; [reflexivity|].
  eapply Forall_impl;
    [|exact (deliveries_reference_innings Samples.match_record 7
               Samples.two_teams _ _ eq_refl)].
  now intros d [Hid _].
Defined.

(** ** Exceptions of the extraction code

    None of the extraction functions raises the loader's YAML error, so
    [process_yaml_file] turns an exception into [False] only when reading
    the file failed. *)

Create HintDb quiet.

Lemma bind_not_yaml {A B : Type} (c : result A) (k : A -> result B) :
  c <> Raise YAMLError -> (forall a, k a <> Raise YAMLError) ->
  bind c k <> Raise YAMLError.
Proof.
  intros Hc Hk. destruct c as [a|e]; cbn; [apply Hk|].
  intros H. apply Hc. now inversion H.
Qed.

Lemma get_not_yaml (obj : pyval) (key : string) (default : pyval) :
  Py.get obj key default <> Raise YAMLError.
Proof. destruct obj; discriminate. Qed.

Lemma getitem_not_yaml (obj : pyval) (key : string) :
  Py.getitem obj key <> Raise YAMLError.
Proof.
  destruct obj; try discriminate.
  cbn. destruct (Py.dict_lookup key entries); discriminate.
Qed.

Lemma first_key_not_yaml (obj : pyval) :
  Py.first_key obj <> Raise YAMLError.
Proof. destruct obj as [| | | | | |[|[k v] d]]; discriminate. Qed.

Lemma index_not_yaml (obj : pyval) (i : nat) :
  Py.index obj i <> Raise YAMLError.
Proof.
  destruct obj; try discriminate; cbn.
  - destruct (String.get i s); discriminate.
  - destruct (nth_error items i); discriminate.
Qed.

Lemma iter_not_yaml (obj : pyval) : Py.iter obj <> Raise YAMLError.
Proof. destruct obj; discriminate. Qed.

Lemma items_not_yaml (obj : pyval) : Py.items obj <> Raise YAMLError.
Proof. destruct obj; discriminate. Qed.

Lemma iadd_not_yaml (acc : Z) (v : pyval) : Py.iadd acc v <> Raise YAMLError.
Proof. destruct v; discriminate. Qed.

Lemma py_int_not_yaml (s : string) : Text.py_int s <> Raise YAMLError.
Proof.
  unfold Text.py_int. cbv zeta.
  match goal with |- match ?p with _ => _ end <> _ => destruct p end;
    discriminate.
Qed.

Lemma float_not_yaml (over ball : Z) :
  float_of_over_ball over ball <> Raise YAMLError.
Proof. unfold float_of_over_ball. destruct (ball <? 0); discriminate. Qed.

#[local] Hint Resolve get_not_yaml getitem_not_yaml first_key_not_yaml
  index_not_yaml iter_not_yaml items_not_yaml iadd_not_yaml py_int_not_yaml
  float_not_yaml : quiet.

Ltac quiet :=
  repeat first
    [ discriminate
    | solve [auto with quiet]
    | apply bind_not_yaml; [|intros ?]
    | match goal with
      | |- (if ?b then _ else _) <> _ => destruct b
      | |- (match ?x with _ => _ end) <> _ => destruct x
      end ].

Lemma parse_over_ball_not_yaml (key : string) :
  parse_over_ball key <> Raise YAMLError.
Proof. unfold parse_over_ball. quiet. Qed.

Lemma extract_wicket_not_yaml (delivery : pyval) :
  extract_wicket delivery <> Raise YAMLError.
Proof. unfold extract_wicket. quiet. Qed.

#[local] Hint Resolve parse_over_ball_not_yaml extract_wicket_not_yaml : quiet.

Lemma process_delivery_not_yaml (match_id innings_number : Z)
    (batting_team bowling_team : pyval) (st : Loop.state) (entry : pyval) :
  process_delivery match_id innings_number batting_team bowling_team st entry
  <> Raise YAMLError.
Proof. unfold process_delivery. quiet. Qed.

Lemma deliveries_loop_not_yaml (match_id innings_number : Z)
    (batting_team bowling_team : pyval) (entries : list pyval) :
  forall st,
    deliveries_loop match_id innings_number batting_team bowling_team st entries
    <> Raise YAMLError.
Proof.
  induction entries as [|entry later IH]; intros st; cbn [deliveries_loop].
  - discriminate.
  - apply bind_not_yaml; [apply process_delivery_not_yaml | intros st'; apply IH].
Qed.

#[local] Hint Resolve deliveries_loop_not_yaml : quiet.

Lemma process_innings_not_yaml (match_id : Z) (teams : pyval) (idx : Z)
    (entry : pyval) :
  process_innings match_id teams idx entry <> Raise YAMLError.
Proof. unfold process_innings. quiet. Qed.

Lemma innings_loop_not_yaml (match_id : Z) (teams : pyval)
    (entries : list pyval) :
  forall idx, innings_loop match_id teams idx entries <> Raise YAMLError.
Proof.
  induction entries as [|entry later IH]; intros idx; cbn [innings_loop].
  - discriminate.
  - apply bind_not_yaml; [apply process_innings_not_yaml|].
    intros [row balls].
    apply bind_not_yaml; [apply IH | intros [rows balls']; discriminate].
Qed.

#[local] Hint Resolve innings_loop_not_yaml : quiet.

Lemma extract_innings_not_yaml (yaml_data : pyval) (match_id : Z)
    (teams : pyval) :
  extract_innings_and_deliveries yaml_data match_id teams <> Raise YAMLError.
Proof. unfold extract_innings_and_deliveries. quiet. Qed.

Lemma rosters_not_yaml (entries : list (string * pyval)) :
  rosters entries <> Raise YAMLError.
Proof.
  induction entries as [|[team player_list] entries IH]; cbn [rosters].
  - discriminate.
  - unfold roster. quiet.
Qed.

#[local] Hint Resolve rosters_not_yaml : quiet.

Lemma extract_players_not_yaml (yaml_data : pyval) :
  extract_players yaml_data <> Raise YAMLError.
Proof. unfold extract_players. quiet. Qed.

(** ** What statements do to a connection *)

Lemma extends_refl (t : tables) : extends t t.
Proof.
  repeat split; exists []; now rewrite app_nil_r.
Qed.

Lemma extends_trans (t1 t2 t3 : tables) :
  extends t1 t2 -> extends t2 t3 -> extends t1 t3.
Proof.
  intros ((m1 & Hm1) & (p1 & Hp1) & (i1 & Hi1) & (b1 & Hb1))
         ((m2 & Hm2) & (p2 & Hp2) & (i2 & Hi2) & (b2 & Hb2)).
  repeat split.
  - exists (m1 ++ m2)%list. now rewrite Hm2, Hm1, app_assoc.
  - exists (p1 ++ p2)%list. now rewrite Hp2, Hp1, app_assoc.
  - exists (i1 ++ i2)%list. now rewrite Hi2, Hi1, app_assoc.
  - exists (b1 ++ b2)%list. now rewrite Hb2, Hb1, app_assoc.
Qed.

Lemma grows_refl (c : connection) : grows c c.
Proof.
  split; [reflexivity|]. split; [lia | apply extends_refl].
Qed.

Lemma grows_trans (c1 c2 c3 : connection) :
  grows c1 c2 -> grows c2 c3 -> grows c1 c3.
Proof.
  intros (Hc1 & Hn1 & He1) (Hc2 & Hn2 & He2).
  split; [congruence|]. split; [lia | eapply extends_trans; eassumption].
Qed.

Lemma growing_ret {A : Type} (a : A) : growing (db_ret a).
Proof.
  intros c r c' H. unfold db_ret in H. inversion H. apply grows_refl.
Qed.

Lemma growing_lift {A : Type} (x : result A) : growing (db_lift x).
Proof.
  intros c r c' H. unfold db_lift in H. inversion H. apply grows_refl.
Qed.

Lemma growing_bind {A B : Type} (m : db A) (k : A -> db B) :
  growing m -> (forall a, growing (k a)) -> growing (db_bind m k).
Proof.
  intros Hm Hk c r c' H. unfold db_bind in H.
  destruct (m c) as [[a|e] c1] eqn:E.
  - eapply grows_trans; [eapply Hm; exact E | eapply Hk; exact H].
  - inversion H; subst. eapply Hm. exact E.
Qed.

Section Statements.

Variable sch : schema.

Lemma growing_insert_match (match_data : Match.t) :
  growing (insert_match sch match_data).
Proof.
  intros c r c' H. unfold insert_match in H.
  destruct (select_match_id _ _);
    [inversion H; apply grows_refl|].
  destruct (accepts_match _ _ _);
    [|inversion H; apply grows_refl].
  inversion H; subst; clear H.
  split; [reflexivity|]. split; [cbn; lia|]. cbn.
  repeat split; cbn; [eauto | exists [] | exists [] | exists []];
    now rewrite app_nil_r.
Qed.

Lemma growing_insert_player (p : Player.t) : growing (insert_player sch p).
Proof.
  intros c r c' H. unfold insert_player in H.
  destruct (accepts_player _ _ _);
    [|inversion H; apply grows_refl].
  destruct (existsb _ _); inversion H; subst; [apply grows_refl|].
  split; [reflexivity|]. split; [cbn; lia|]. cbn.
  repeat split; cbn; [exists [] | eauto | exists [] | exists []];
    now rewrite app_nil_r.
Qed.

Lemma growing_insert_innings_row (r : Innings.t) :
  growing (insert_innings_row sch r).
Proof.
  intros c res c' H. unfold insert_innings_row in H.
  destruct (accepts_innings _ _ _);
    [|inversion H; apply grows_refl].
  inversion H; subst.
  split; [reflexivity|]. split; [cbn; lia|]. cbn.
  repeat split; cbn; [exists [] | exists [] | eauto | exists []];
    now rewrite app_nil_r.
Qed.

Lemma growing_insert_delivery (r : Delivery.t) :
  growing (insert_delivery sch r).
Proof.
  intros c res c' H. unfold insert_delivery in H.
  destruct (accepts_delivery _ _ _);
    [|inversion H; apply grows_refl].
  inversion H; subst.
  split; [reflexivity|]. split; [cbn; lia|]. cbn.
  repeat split; cbn; [exists [] | exists [] | exists [] | eauto];
    now rewrite app_nil_r.
Qed.

Lemma growing_execute_batch {A : Type} (stmt : A -> db unit) (rows : list A) :
  (forall r, growing (stmt r)) -> growing (execute_batch stmt rows).
Proof.
  intros Hstmt. induction rows as [|r rows IH]; cbn [execute_batch].
  - apply growing_ret.
  - apply growing_bind; [apply Hstmt | intros _; exact IH].
Qed.

(** A batch that fails does so with a database error. *)
Lemma execute_batch_raises {A : Type} (stmt : A -> db unit) (rows : list A) :
  (forall r c e c', stmt r c = (Raise e, c') -> e = DatabaseError) ->
  forall c e c',
    execute_batch stmt rows c = (Raise e, c') -> e = DatabaseError.
Proof.
  intros Hstmt. induction rows as [|r rows IH]; intros c e c' H.
  - discriminate H.
  - cbn [execute_batch] in H. unfold db_bind in H.
    destruct (stmt r c) as [[[]|e0] c1] eqn:E.
    + eapply IH. exact H.
    + inversion H; subst. eapply Hstmt. exact E.
Qed.

Lemma insert_player_raises (p : Player.t) (c : connection) (e : exn)
    (c' : connection) :
  insert_player sch p c = (Raise e, c') -> e = DatabaseError.
Proof.
  unfold insert_player. destruct (accepts_player _ _ _).
  - destruct (existsb _ _); discriminate.
  - intros H. now inversion H.
Qed.

Lemma insert_innings_row_raises (r : Innings.t) (c : connection) (e : exn)
    (c' : connection) :
  insert_innings_row sch r c = (Raise e, c') -> e = DatabaseError.
Proof.
  unfold insert_innings_row. destruct (accepts_innings _ _ _).
  - discriminate.
  - intros H. now inversion H.
Qed.

Lemma insert_delivery_raises (r : Delivery.t) (c : connection) (e : exn)
    (c' : connection) :
  insert_delivery sch r c = (Raise e, c') -> e = DatabaseError.
Proof.
  unfold insert_delivery. destruct (accepts_delivery _ _ _).
  - discriminate.
  - intros H. now inversion H.
Qed.

(** A batch of innings rows that succeeds appends exactly its rows. *)
Lemma insert_innings_appends (rows : list Innings.t) :
  forall c c',
    insert_innings sch rows c = (Ok tt, c') ->
    innings (current c') = (innings (current c) ++ rows)%list /\
    ball_by_ball (current c') = ball_by_ball (current c) /\
    players (current c') = players (current c) /\
    next_match_id c' = next_match_id c.
Proof.
  unfold insert_innings.
  induction rows as [|r rows IH]; intros c c' H.
  - cbn in H. unfold db_ret in H. inversion H. now rewrite app_nil_r.
  - cbn [execute_batch] in H. unfold db_bind in H.
    destruct (insert_innings_row sch r c) as [[[]|e] c1] eqn:E;
      [|discriminate].
    destruct (IH _ _ H) as (Hi & Hb & Hp & Hn).
    unfold insert_innings_row in E.
    destruct (accepts_innings _ _ _); [|discriminate].
    inversion E; subst c1. cbn in Hi, Hb, Hp, Hn.
    rewrite Hi, Hb, Hp, Hn, <- app_assoc. now repeat split.
Qed.

(** A batch of delivery rows that succeeds appends exactly its rows. *)
Lemma insert_deliveries_appends (rows : list Delivery.t) :
  forall c c',
    insert_deliveries sch rows c = (Ok tt, c') ->
    ball_by_ball (current c') = (ball_by_ball (current c) ++ rows)%list /\
    innings (current c') = innings (current c) /\
    players (current c') = players (current c) /\
    next_match_id c' = next_match_id c.
Proof.
  unfold insert_deliveries.
  induction rows as [|r rows IH]; intros c c' H.
  - cbn in H. unfold db_ret in H. inversion H. now rewrite app_nil_r.
  - cbn [execute_batch] in H. unfold db_bind in H.
    destruct (insert_delivery sch r c) as [[[]|e] c1] eqn:E;
      [|discriminate].
    destruct (IH _ _ H) as (Hb & Hi & Hp & Hn).
    unfold insert_delivery in E.
    destruct (accepts_delivery _ _ _); [|discriminate].
    inversion E; subst c1. cbn in Hi, Hb, Hp, Hn.
    rewrite Hi, Hb, Hp, Hn, <- app_assoc. now repeat split.
Qed.

Lemma insert_players_frame (ps : list Player.t) :
  forall c c',
    insert_players sch ps c = (Ok tt, c') ->
    innings (current c') = innings (current c) /\
    ball_by_ball (current c') = ball_by_ball (current c) /\
    next_match_id c' = next_match_id c.
Proof.
  unfold insert_players.
  induction ps as [|p ps IH]; intros c c' H.
  - cbn in H. unfold db_ret in H. now inversion H.
  - cbn [execute_batch] in H. unfold db_bind in H.
    destruct (insert_player sch p c) as [[[]|e] c1] eqn:E; [|discriminate].
    destruct (IH _ _ H) as (Hi & Hb & Hn).
    unfold insert_player in E.
    destruct (accepts_player _ _ _); [|discriminate].
    destruct (existsb _ _); inversion E; subst c1; cbn in Hi, Hb, Hn;
      now repeat split.
Qed.

End Statements.

(** ** One record through the loader *)

Section OneRecord.

Variable sch : schema.
Variable read_yaml : string -> result pyval.

Lemma growing_process_yaml_body (filepath : string) :
  growing (process_yaml_body sch read_yaml filepath).
Proof.
  unfold process_yaml_body.
  apply growing_bind; [apply growing_lift | intros yaml_data].
  destruct (negb (Py.truthy yaml_data)); [apply growing_ret|].
  apply growing_bind; [apply growing_lift | intros match_data].
  apply growing_bind; [apply growing_insert_match | intros [match_id|]];
    [|apply growing_ret].
  apply growing_bind; [apply growing_lift | intros players].
  apply growing_bind;
    [apply growing_execute_batch; intros; apply growing_insert_player
    | intros _].
  apply growing_bind; [apply growing_lift | intros teams].
  apply growing_bind; [apply growing_lift | intros extracted].
  apply growing_bind;
    [apply growing_execute_batch; intros; apply growing_insert_innings_row
    | intros _].
  apply growing_bind;
    [apply growing_execute_batch; intros; apply growing_insert_delivery
    | intros _].
  apply growing_ret.
Qed.

Lemma growing_process_yaml_file (filepath : string) :
  growing (process_yaml_file sch read_yaml filepath).
Proof.
  intros c r c' H. unfold process_yaml_file in H.
  destruct (process_yaml_body sch read_yaml filepath c) as [r0 c0] eqn:E.
  apply growing_process_yaml_body in E.
  destruct r0 as [b|[]]; inversion H; subst; exact E.
Qed.

(** The body returns [False], or raises the YAML error, only before it
    has written anything. *)
Lemma body_false_unchanged (filepath : string) (c c' : connection)
    (r : result bool) :
  process_yaml_body sch read_yaml filepath c = (r, c') ->
  r = Ok false \/ r = Raise YAMLError -> c' = c.
Proof.
  unfold process_yaml_body, db_bind, db_lift, db_ret. intros H Hr.
  destruct (read_yaml filepath) as [yaml_data|e0]; [|now inversion H].
  destruct (Py.truthy yaml_data); cbn [negb] in H; [|now inversion H].
  destruct (extract_match_data yaml_data (basename filepath))
    as [match_data|e1]; [|now inversion H].
  unfold insert_match in H.
  destruct (select_match_id _ _); [now inversion H|].
  destruct (accepts_match _ _ _); [|now inversion H].
  exfalso.
  destruct (extract_players yaml_data) as [players|e2] eqn:E2.
  2:{ inversion H; subst.
      destruct Hr as [Hr | Hr]; [discriminate|].
      inversion Hr; subst e2. now apply (extract_players_not_yaml yaml_data). }
  match type of H with
  | context [insert_players sch players ?c0] =>
      destruct (insert_players sch players c0) as [[[]|e3] c2] eqn:E3
  end.
  2:{ apply execute_batch_raises in E3; [|apply insert_player_raises].
      inversion H; subst. destruct Hr; discriminate. }
  destruct (info <- Py.get yaml_data "info" (PDict []);;
            Py.get info "teams" (PList [])) as [teams|e4] eqn:E4.
  2:{ inversion H; subst.
      destruct Hr as [Hr | Hr]; [discriminate|].
      inversion Hr; subst e4. revert E4. quiet. }
  match type of H with
  | context [extract_innings_and_deliveries yaml_data ?id teams] =>
      destruct (extract_innings_and_deliveries yaml_data id teams)
        as [extracted|e5] eqn:E5
  end.
  2:{ inversion H; subst.
      destruct Hr as [Hr | Hr]; [discriminate|].
      inversion Hr; subst e5. revert E5. apply extract_innings_not_yaml. }
  destruct (insert_innings sch (fst extracted) c2) as [[[]|e6] c3] eqn:E6.
  2:{ apply execute_batch_raises in E6; [|apply insert_innings_row_raises].
      inversion H; subst. destruct Hr; discriminate. }
  destruct (insert_deliveries sch (snd extracted) c3) as [[[]|e7] c4] eqn:E7.
  2:{ apply execute_batch_raises in E7; [|apply insert_delivery_raises].
      inversion H; subst. destruct Hr; discriminate. }
  inversion H; subst. destruct Hr; discriminate.
Qed.

Lemma file_false_unchanged (filepath : string) (c c' : connection) :
  process_yaml_file sch read_yaml filepath c = (Ok false, c') -> c' = c.
Proof.
  unfold process_yaml_file. intros H.
  destruct (process_yaml_body sch read_yaml filepath c) as [r0 c0] eqn:E.
  destruct r0 as [b|e].
  - inversion H; subst. eapply body_false_unchanged; [exact E | now left].
  - destruct e; inversion H; subst.
    eapply body_false_unchanged; [exact E | now right].
Qed.

(** What an ingested record has written. *)
Lemma file_true_appends (filepath : string) (c c' : connection) :
  process_yaml_file sch read_yaml filepath c = (Ok true, c') ->
  exists yaml_data match_data teams innings_data deliveries_data,
    read_yaml filepath = Ok yaml_data /\
    extract_match_data yaml_data (basename filepath) = Ok match_data /\
    select_match_id (basename filepath) (matches (current c)) = None /\
    (info <- Py.get yaml_data "info" (PDict []) ;;
     Py.get info "teams" (PList [])) = Ok teams /\
    extract_innings_and_deliveries yaml_data (next_match_id c) teams
    = Ok (innings_data, deliveries_data) /\
    matches (current c')
    = (matches (current c) ++ [(next_match_id c, match_data)])%list /\
    innings (current c') = (innings (current c) ++ innings_data)%list /\
    ball_by_ball (current c')
    = (ball_by_ball (current c) ++ deliveries_data)%list /\
    next_match_id c' = next_match_id c + 1.
Proof.
  unfold process_yaml_file.
  destruct (process_yaml_body sch read_yaml filepath c) as [[b|e] c0] eqn:E.
  2:{ destruct e; discriminate. }
  intros H. inversion H; subst b c0. clear H.
  unfold process_yaml_body, db_bind, db_lift, db_ret in E.
  destruct (read_yaml filepath) as [yaml_data|] eqn:Hread; [|discriminate].
  destruct (Py.truthy yaml_data); cbn [negb] in E; [|discriminate].
  destruct (extract_match_data yaml_data (basename filepath))
    as [match_data|] eqn:Hextract; [|discriminate].
  destruct (insert_match sch match_data c) as [[[id|]|] c1] eqn:Hinsert;
    try discriminate.
  destruct (extract_players yaml_data) as [players|]; [|discriminate].
  destruct (insert_players sch players c1) as [[[]|] c2] eqn:Hplayers;
    [|discriminate].
  destruct (info <- Py.get yaml_data "info" (PDict []);;
            Py.get info "teams" (PList [])) as [teams|] eqn:Hteams;
    [|discriminate].
  destruct (extract_innings_and_deliveries yaml_data id teams)
    as [[innings_data deliveries_data]|] eqn:Hrows; [|discriminate].
  cbn [fst snd] in E.
  destruct (insert_innings sch innings_data c2) as [[[]|] c3] eqn:Hinnings;
    [|discriminate].
  destruct (insert_deliveries sch deliveries_data c3) as [[[]|] c4]
    eqn:Hdeliveries; [|discriminate].
  inversion E; subst c4. clear E.
  pose proof (execute_batch_matches _ (insert_player_matches sch) _ _ _
                Hplayers) as Hm2.
  pose proof (execute_batch_matches _ (insert_innings_row_matches sch) _ _ _
                Hinnings) as Hm3.
  pose proof (execute_batch_matches _ (insert_delivery_matches sch) _ _ _
                Hdeliveries) as Hm4.
  apply insert_players_frame in Hplayers as (Hi2 & Hb2 & Hn2).
  apply insert_innings_appends in Hinnings as (Hi3 & Hb3 & _ & Hn3).
  apply insert_deliveries_appends in Hdeliveries as (Hb4 & Hi4 & _ & Hn4).
  unfold insert_match in Hinsert.
  rewrite (extract_match_data_source_file _ _ _ Hextract) in Hinsert.
  destruct (select_match_id (basename filepath) (matches (current c)))
    eqn:Hselect; [discriminate|].
  destruct (accepts_match _ _ _); [|discriminate].
  inversion Hinsert; subst id c1. clear Hinsert.
  cbn in Hm2, Hi2, Hb2, Hn2.
  exists yaml_data, match_data, teams, innings_data, deliveries_data.
  repeat split; try assumption; try reflexivity; congruence.
Qed.

End OneRecord.

(** ** The batch loop *)

Section Batch.

Variable sch : schema.
Variable read_yaml : string -> result pyval.

(** The four ways one pass through the loop body can go. *)
Lemma process_one_cases (filepath : string) (n n' : counts)
    (c c' : connection) :
  process_one sch read_yaml filepath n c = (n', c') ->
  (exists c0,
     process_yaml_file sch read_yaml filepath c = (Ok true, c0) /\
     accepts_commit sch (current c0) = true /\
     c' = commit c0 /\ n' = one_more_ingested n) \/
  (exists c0,
     process_yaml_file sch read_yaml filepath c = (Ok true, c0) /\
     accepts_commit sch (current c0) = false /\
     c' = rollback c0 /\ n' = one_more_failed (one_more_ingested n)) \/
  (process_yaml_file sch read_yaml filepath c = (Ok false, c) /\
   c' = c /\ n' = one_more_skipped n) \/
  (exists e c0,
     process_yaml_file sch read_yaml filepath c = (Raise e, c0) /\
     c' = rollback c0 /\ n' = one_more_failed n).
Proof.
  unfold process_one.
  destruct (process_yaml_file sch read_yaml filepath c) as [[[|]|e] c0] eqn:E.
  - destruct (accepts_commit sch (current c0)) eqn:Hcommit;
      intros H; inversion H; subst.
    + left. exists c0. now repeat split.
    + right. left. exists c0. now repeat split.
  - intros H; inversion H; subst.
    right. right. left. apply file_false_unchanged in E as Hsame. subst c'.
    now repeat split.
  - intros H; inversion H; subst.
    right. right. right. eauto.
Qed.

Lemma process_one_counted (filepath : string) (n : counts) (c : connection) :
  counted n + 1 <= counted (fst (process_one sch read_yaml filepath n c))
  <= counted n + 2 /\
  ((forall t, accepts_commit sch t = true) ->
   counted (fst (process_one sch read_yaml filepath n c)) = counted n + 1).
Proof.
  unfold process_one.
  destruct (process_yaml_file sch read_yaml filepath c) as [[[|]|e] c0].
  - destruct (accepts_commit sch (current c0)) eqn:Hcommit;
      unfold counted; cbn; (split; [lia|]); intros Hall;
      [lia | rewrite Hall in Hcommit; discriminate].
  - unfold counted; cbn. split; [lia | intros; lia].
  - unfold counted; cbn. split; [lia | intros; lia].
Qed.

(** X14: every file of a batch is counted: the three counters together grow
    by at least the number of files and by at most twice that number, and by
    exactly the number of files when every commit is accepted.  (A record
    whose commit fails is counted as a success and as an error.) *)
Theorem batch_counts_every_record (yaml_files : list string) :
  forall n c,
    counted n + Z.of_nat (List.length yaml_files)
    <= counted (fst (files_loop sch read_yaml yaml_files n c))
    <= counted n + 2 * Z.of_nat (List.length yaml_files) /\
    ((forall t, accepts_commit sch t = true) ->
     counted (fst (files_loop sch read_yaml yaml_files n c))
     = counted n + Z.of_nat (List.length yaml_files)).
Proof.
  induction yaml_files as [|filepath later IH]; intros n c.
  - cbn. split; [lia | intros; lia].
  - cbn [files_loop].
    pose proof (process_one_counted filepath n c) as [Hone Hone'].
    destruct (process_one sch read_yaml filepath n c) as [n1 c1].
    cbn [fst] in Hone, Hone'.
    destruct (IH n1 c1) as [Hrest Hrest'].
    cbn [List.length]. rewrite Nat2Z.inj_succ. split; [lia|].
    intros Hall. rewrite (Hrest' Hall), (Hone' Hall). lia.
Qed.

(** X15: a record counted as skipped has written nothing: the connection,
    identifier generator included, is as it was. *)
Theorem skipped_writes_nothing (filepath : string) (n n' : counts)
    (c c' : connection) :
  process_one sch read_yaml filepath n c = (n', c') ->
  skip_count n' = skip_count n + 1 ->
  c' = c.
Proof.
  intros H Hskip.
  apply process_one_cases in H
    as [(c0 & _ & _ & _ & ->) | [(c0 & _ & _ & _ & ->) |
        [(_ & -> & _) | (e & c0 & _ & _ & ->)]]];
    [cbn in Hskip; lia | cbn in Hskip; lia | reflexivity
    | cbn in Hskip; lia].
Qed.

(** X16: a record counted as failed leaves the tables as they were
    committed: whatever it had inserted before the exception is rolled
    back. *)
Theorem failed_record_rolled_back (filepath : string) (n n' : counts)
    (c c' : connection) :
  clean c ->
  process_one sch read_yaml filepath n c = (n', c') ->
  error_count n' = error_count n + 1 ->
  current c' = current c /\ committed c' = committed c /\ clean c'.
Proof.
  intros Hclean H Herr.
  apply process_one_cases in H
    as [(c0 & _ & _ & _ & ->) | [(c0 & Hfile & _ & -> & _) |
        [(_ & _ & ->) | (e & c0 & Hfile & -> & _)]]];
    [cbn in Herr; lia | | cbn in Herr; lia |];
    apply growing_process_yaml_file in Hfile as (Hcommitted & _);
    unfold clean in *; cbn; rewrite Hcommitted; now repeat split.
Qed.


Lemma step_clean_extends (filepath : string) (n n' : counts)
    (c c' : connection) :
  clean c ->
  process_one sch read_yaml filepath n c = (n', c') ->
  clean c' /\ extends (committed c) (committed c') /\
  next_match_id c <= next_match_id c'.
Proof.
  intros Hclean H.
  apply process_one_cases in H
    as [(c0 & Hfile & _ & -> & _) | [(c0 & Hfile & _ & -> & _) |
        [(_ & -> & _) | (e & c0 & Hfile & -> & _)]]].
  - apply growing_process_yaml_file in Hfile as (_ & Hn & Hext).
    unfold clean in *. cbn. rewrite <- Hclean.
    split; [reflexivity|]. split; [exact Hext | exact Hn].
  - apply growing_process_yaml_file in Hfile as (Hcommitted & Hn & _).
    unfold clean. cbn. rewrite Hcommitted.
    split; [reflexivity|]. split; [apply extends_refl | exact Hn].
  - split; [exact Hclean|]. split; [apply extends_refl | lia].
  - apply growing_process_yaml_file in Hfile as (Hcommitted & Hn & _).
    unfold clean. cbn. rewrite Hcommitted.
    split; [reflexivity|]. split; [apply extends_refl | exact Hn].
Qed.

(** X18: starting with nothing pending, a batch ends with nothing pending
    and has only appended: each committed table still begins with the rows
    it held, in their order, so every stored source file stays stored. *)
Theorem batch_append_only (yaml_files : list string) :
  forall n c n' c',
    clean c ->
    files_loop sch read_yaml yaml_files n c = (n', c') ->
    clean c' /\ extends (committed c) (committed c') /\
    (forall file, In file (stored_files (committed c)) ->
                  In file (stored_files (committed c'))).
Proof.
  induction yaml_files as [|filepath later IH]; intros n c n' c' Hclean H.
  - cbn in H. inversion H; subst.
    split; [exact Hclean|]. split; [apply extends_refl | auto].
  - cbn [files_loop] in H.
    destruct (process_one sch read_yaml filepath n c) as [n1 c1] eqn:E.
    apply (step_clean_extends _ _ _ _ _ Hclean) in E as (Hclean1 & Hext1 & _).
    destruct (IH _ _ _ _ Hclean1 H) as (Hclean' & Hext' & _).
    split; [exact Hclean'|].
    pose proof (extends_trans _ _ _ Hext1 Hext') as Hext.
    split; [exact Hext|].
    intros file Hin. destruct Hext as ((more & Hmore) & _).
    unfold stored_files in *. rewrite Hmore, map_app.
    apply in_or_app. now left.
Qed.

End Batch.

(** A record whose commit fails is counted twice and leaves nothing. *)
Example failed_commit_counted_twice :
  files_loop rejecting_commits Samples.files ["data/match1.yaml"] no_counts
    fresh_connection
  = ({| success_count := 1; skip_count := 0; error_count := 1 |},
     {| committed := no_tables; current := no_tables; next_match_id := 2 |}).
Proof. vm_compute. reflexivity. Qed.

Lemma batch_counts_every_record_witness :
  counted (fst (files_loop permissive Samples.files
                  ["data/broken.yaml"; "data/empty.yaml"; "data/match1.yaml"]
                  no_counts fresh_connection)) = 3.
Proof.
  destruct (batch_counts_every_record permissive Samples.files
              ["data/broken.yaml"; "data/empty.yaml"; "data/match1.yaml"]
              no_counts fresh_connection) as [_ Hexact].
  rewrite Hexact; reflexivity.
Defined.

Lemma skipped_writes_nothing_witness :
  snd (process_one permissive Samples.files "data/broken.yaml" no_counts
         fresh_connection) = fresh_connection.
Proof.
  apply (skipped_writes_nothing permissive Samples.files "data/broken.yaml"
           no_counts (one_more_skipped no_counts));
    vm_compute; reflexivity.
Defined.

Lemma failed_record_rolled_back_witness :
  error_count (fst rejected_outcome) = 1 /\
  current (snd rejected_outcome) = no_tables /\
  committed (snd rejected_outcome) = no_tables.
Proof.
  assert (Hrun : process_one rejecting_deliveries Samples.files
                   "data/match1.yaml" no_counts fresh_connection
                 = (fst rejected_outcome, snd rejected_outcome))
    by apply surjective_pairing.
  assert (Herr : error_count (fst rejected_outcome)
                 = error_count no_counts + 1)
    by (vm_compute; reflexivity).
  assert (Hclean : clean fresh_connection) by reflexivity.
  destruct (failed_record_rolled_back _ _ _ _ _ _ _ Hclean Hrun Herr)
    as (Hcurrent & Hcommitted & _).
  split; [vm_compute; reflexivity|].
  split; [exact Hcurrent | exact Hcommitted].
Defined.


Lemma batch_append_only_witness :
  clean (snd rerun_outcome) /\
  In "match1.yaml" (stored_files (committed (snd rerun_outcome))).
Proof.
  assert (Hrun : files_loop permissive Samples.files
                   ["data/broken.yaml"; "data/match1.yaml"] no_counts
                   loaded_connection
                 = (fst rerun_outcome, snd rerun_outcome))
    by apply surjective_pairing.
  assert (Hclean : clean loaded_connection) by (vm_compute; reflexivity).
  destruct (batch_append_only _ _ _ _ _ _ _ Hclean Hrun)
    as (Hclean' & _ & Hkept).
  split; [exact Hclean'|]. apply Hkept. vm_compute. now left.
Defined.

(** ** Natural keys and identifiers *)

Lemma select_none_not_stored (source_file : string)
    (rows : list (Z * Match.t)) :
  select_match_id source_file rows = None ->
  ~ In source_file (map (fun r => Match.source_file (snd r)) rows).
Proof.
  induction rows as [|[id m] rows IH]; cbn [select_match_id map]; [auto|].
  destruct (String.eqb_spec (Match.source_file m) source_file) as [|Hne];
    [discriminate|].
  intros Hnone [Hhere | Hlater]; [now apply Hne | now apply IH].
Qed.

Lemma select_after_append (source_file : string) (rows : list (Z * Match.t))
    (id : Z) (m : Match.t) :
  select_match_id source_file rows = None ->
  Match.source_file m = source_file ->
  select_match_id source_file (rows ++ [(id, m)]) = Some id.
Proof.
  intros Hnone Hfile. induction rows as [|[id0 m0] rows IH].
  - cbn. rewrite Hfile. now rewrite String.eqb_refl.
  - cbn [select_match_id app] in Hnone |- *.
    destruct (String.eqb (Match.source_file m0) source_file);
      [discriminate | now apply IH].
Qed.

Lemma NoDup_snoc {A : Type} (l : list A) (x : A) :
  NoDup l -> ~ In x l -> NoDup (l ++ [x]).
Proof.
  induction 1 as [|a l Ha Hl IH]; intros Hx; cbn [app].
  - constructor; [intros [] | constructor].
  - constructor.
    + intros Hin. apply in_app_or in Hin as [Hin | [Heq | []]];
        [now apply Ha | subst; apply Hx; now left].
    + apply IH. intros Hin. apply Hx. now right.
Qed.

Section Keys.

Variable sch : schema.
Variable read_yaml : string -> result pyval.

(** X19: a match inserted under a fresh identifier is found again under
    its source file, with that identifier, and a second insertion of the
    same match dictionary is refused without touching the connection. *)
Theorem insert_match_then_found (match_data : Match.t) (id : Z)
    (c c' : connection) :
  insert_match sch match_data c = (Ok (Some id), c') ->
  id = next_match_id c /\
  select_match_id (Match.source_file match_data) (matches (current c'))
  = Some id /\
  insert_match sch match_data c' = (Ok None, c').
Proof.
  unfold insert_match at 1.
  destruct (select_match_id (Match.source_file match_data)
              (matches (current c))) eqn:Hnone; [discriminate|].
  destruct (accepts_match _ _ _); [|discriminate].
  intros H. inversion H; subst. clear H.
  assert (Hfound :
            select_match_id (Match.source_file match_data)
              (matches (current c) ++ [(next_match_id c, match_data)])
            = Some (next_match_id c))
    by now apply select_after_append.
  split; [reflexivity|]. split; [exact Hfound|].
  unfold insert_match. cbn [current matches]. now rewrite Hfound.
Qed.

Lemma step_files_unique (filepath : string) (n n' : counts)
    (c c' : connection) :
  clean c ->
  NoDup (stored_files (committed c)) ->
  process_one sch read_yaml filepath n c = (n', c') ->
  NoDup (stored_files (committed c')).
Proof.
  intros Hclean Hnodup H.
  apply process_one_cases in H
    as [(c0 & Hfile & _ & -> & _) | [(c0 & Hfile & _ & -> & _) |
        [(_ & -> & _) | (e & c0 & Hfile & -> & _)]]].
  - apply file_true_appends in Hfile
      as (y & m & t & i & d & _ & Hm & Hnone & _ & _ & Hrows & _).
    unfold stored_files in *. cbn [commit committed].
    rewrite Hrows, map_app. cbn [map snd].
    rewrite (extract_match_data_source_file _ _ _ Hm).
    unfold clean in Hclean. rewrite Hclean.
    apply NoDup_snoc; [exact Hnodup|].
    rewrite <- Hclean. now apply select_none_not_stored.
  - apply growing_process_yaml_file in Hfile as (Hcommitted & _).
    cbn [rollback committed]. now rewrite Hcommitted.
  - exact Hnodup.
  - apply growing_process_yaml_file in Hfile as (Hcommitted & _).
    cbn [rollback committed]. now rewrite Hcommitted.
Qed.

(** X20: the source file stays a key of the matches table: if no two
    committed matches share a source file before a batch, none do after it,
    whatever files the batch lists and however often. *)
Theorem batch_keeps_files_unique (yaml_files : list string) :
  forall n c n' c',
    clean c ->
    NoDup (stored_files (committed c)) ->
    files_loop sch read_yaml yaml_files n c = (n', c') ->
    NoDup (stored_files (committed c')).
Proof.
  induction yaml_files as [|filepath later IH];
    intros n c n' c' Hclean Hnodup H.
  - cbn in H. now inversion H; subst.
  - cbn [files_loop] in H.
    destruct (process_one sch read_yaml filepath n c) as [n1 c1] eqn:E.
    eapply IH; [| |exact H].
    + now apply (step_clean_extends _ _ _ _ _ _ _ Hclean) in E.
    + eapply step_files_unique; eassumption.
Qed.

Lemma step_ids_fresh (filepath : string) (n n' : counts)
    (c c' : connection) :
  clean c ->
  Forall (fun id => id < next_match_id c) (stored_ids (committed c)) ->
  NoDup (stored_ids (committed c)) ->
  process_one sch read_yaml filepath n c = (n', c') ->
  Forall (fun id => id < next_match_id c') (stored_ids (committed c')) /\
  NoDup (stored_ids (committed c')).
Proof.
  intros Hclean Hbelow Hnodup H.
  apply process_one_cases in H
    as [(c0 & Hfile & _ & -> & _) | [(c0 & Hfile & _ & -> & _) |
        [(_ & -> & _) | (e & c0 & Hfile & -> & _)]]].
  - apply file_true_appends in Hfile
      as (y & m & t & i & d & _ & _ & _ & _ & _ & Hrows & _ & _ & Hnext).
    unfold stored_ids in *. cbn [commit committed next_match_id].
    unfold clean in Hclean. rewrite Hrows, map_app, Hclean, Hnext.
    cbn [map fst]. split.
    + apply Forall_app. split.
      * eapply Forall_impl; [|exact Hbelow]. cbn. intros; lia.
      * constructor; [lia | constructor].
    + apply NoDup_snoc; [exact Hnodup|].
      intros Hin. rewrite Forall_forall in Hbelow.
      specialize (Hbelow _ Hin). lia.
  - apply growing_process_yaml_file in Hfile as (Hcommitted & Hn & _).
    cbn [rollback committed next_match_id]. rewrite Hcommitted.
    split; [|exact Hnodup].
    eapply Forall_impl; [|exact Hbelow]. cbn. intros; lia.
  - now split.
  - apply growing_process_yaml_file in Hfile as (Hcommitted & Hn & _).
    cbn [rollback committed next_match_id]. rewrite Hcommitted.
    split; [|exact Hnodup].
    eapply Forall_impl; [|exact Hbelow]. cbn. intros; lia.
Qed.

(** X21: match identifiers are never reused: if the committed identifiers
    are distinct and below the generator's next value before a batch, they
    are so after it, also when records of the batch fail after taking an
    identifier. *)
Theorem batch_keeps_ids_fresh (yaml_files : list string) :
  forall n c n' c',
    clean c ->
    Forall (fun id => id < next_match_id c) (stored_ids (committed c)) ->
    NoDup (stored_ids (committed c)) ->
    files_loop sch read_yaml yaml_files n c = (n', c') ->
    Forall (fun id => id < next_match_id c') (stored_ids (committed c')) /\
    NoDup (stored_ids (committed c')).
Proof.
  induction yaml_files as [|filepath later IH];
    intros n c n' c' Hclean Hbelow Hnodup H.
  - cbn in H. inversion H; subst. now split.
  - cbn [files_loop] in H.
    destruct (process_one sch read_yaml filepath n c) as [n1 c1] eqn:E.
    destruct (step_ids_fresh _ _ _ _ _ Hclean Hbelow Hnodup E)
      as (Hbelow1 & Hnodup1).
    eapply IH; [| | |exact H]; try assumption.
    now apply (step_clean_extends _ _ _ _ _ _ _ Hclean) in E.
Qed.

(** X22: a file listed twice in a batch is ingested once: when its first
    pass succeeds and is committed, the second is counted as skipped and the
    connection is left as the first pass committed it. *)
Theorem listed_twice_ingested_once (filepath : string) (n : counts)
    (c c1 : connection) :
  process_yaml_file sch read_yaml filepath c = (Ok true, c1) ->
  accepts_commit sch (current c1) = true ->
  files_loop sch read_yaml [filepath; filepath] n c
  = (one_more_skipped (one_more_ingested n), commit c1).
Proof.
  intros H Hcommit. cbn [files_loop].
  assert (Hfirst : process_one sch read_yaml filepath n c
                   = (one_more_ingested n, commit c1))
    by (unfold process_one; now rewrite H, Hcommit).
  rewrite Hfirst.
  now rewrite (reingest_skipped sch read_yaml filepath (one_more_ingested n)
                 c c1 H).
Qed.

End Keys.

Lemma insert_match_then_found_witness :
  select_match_id "match9.yaml"
    (matches (current (snd (insert_match permissive
                              (default_match "match9.yaml")
                              fresh_connection))))
  = Some 1.
Proof.
  destruct (insert_match_then_found permissive (default_match "match9.yaml")
              1 fresh_connection _ eq_refl)
    as (_ & Hfound & _).
  exact Hfound.
Defined.

Lemma batch_keeps_files_unique_witness :
  NoDup (stored_files (committed (snd rerun_outcome))).
Proof.
  assert (Hrun : files_loop permissive Samples.files
                   ["data/broken.yaml"; "data/match1.yaml"] no_counts
                   loaded_connection
                 = (fst rerun_outcome, snd rerun_outcome))
    by apply surjective_pairing.
  assert (Hclean : clean loaded_connection) by (vm_compute; reflexivity).
  assert (Hfiles : stored_files (committed loaded_connection)
                   = ["match1.yaml"]) by (vm_compute; reflexivity).
  assert (Hnodup : NoDup (stored_files (committed loaded_connection)))
    by (rewrite Hfiles; repeat constructor; intros []).
  exact (batch_keeps_files_unique _ _ _ _ _ _ _ Hclean Hnodup Hrun).
Defined.

Lemma batch_keeps_ids_fresh_witness :
  NoDup (stored_ids (committed (snd rerun_outcome))).
Proof.
  assert (Hrun : files_loop permissive Samples.files
                   ["data/broken.yaml"; "data/match1.yaml"] no_counts
                   loaded_connection
                 = (fst rerun_outcome, snd rerun_outcome))
    by apply surjective_pairing.
  assert (Hclean : clean loaded_connection) by (vm_compute; reflexivity).
  assert (Hids : stored_ids (committed loaded_connection) = [1])
    by (vm_compute; reflexivity).
  assert (Hnext : next_match_id loaded_connection = 2)
    by (vm_compute; reflexivity).
  assert (Hbelow : Forall (fun id => id < next_match_id loaded_connection)
                     (stored_ids (committed loaded_connection)))
    by (rewrite Hids, Hnext; repeat constructor).
  assert (Hnodup : NoDup (stored_ids (committed loaded_connection)))
    by (rewrite Hids; repeat constructor; intros []).
  exact (proj2 (batch_keeps_ids_fresh _ _ _ _ _ _ _ Hclean Hbelow Hnodup Hrun)).
Defined.

Lemma listed_twice_ingested_once_witness :
  fst (files_loop permissive Samples.files
         ["data/match1.yaml"; "data/match1.yaml"] no_counts fresh_connection)
  = {| success_count := 1; skip_count := 1; error_count := 0 |}.
Proof.
  assert (Hfirst : process_yaml_file permissive Samples.files
                     "data/match1.yaml" fresh_connection
                   = (Ok true,
                      snd (process_yaml_file permissive Samples.files
                             "data/match1.yaml" fresh_connection)))
    by (vm_compute; reflexivity).
  rewrite (listed_twice_ingested_once permissive Samples.files
             "data/match1.yaml" no_counts fresh_connection _ Hfirst eq_refl).
  reflexivity.
Defined.

(** ** Rosters in storage *)

Section Rosters.

Variable sch : schema.

Lemma same_player_refl (p : Player.t) : named p -> same_player p p = true.
Proof.
  intros (s & Hs). unfold same_player. rewrite Hs. cbn [Py.eq].
  now rewrite !String.eqb_refl.
Qed.

Lemma insert_player_stores (p : Player.t) (c c' : connection) :
  named p -> insert_player sch p c = (Ok tt, c') -> stored_player p c'.
Proof.
  intros Hnamed. unfold insert_player, stored_player.
  destruct (accepts_player _ _ _); [|discriminate].
  destruct (existsb (same_player p) (players (current c))) eqn:E;
    intros H; inversion H; subst; [exact E|].
  cbn. rewrite existsb_app. cbn.
  rewrite (same_player_refl _ Hnamed). now rewrite orb_true_r.
Qed.

Lemma insert_player_keeps (q p : Player.t) (c c' : connection)
    (r : result unit) :
  stored_player q c -> insert_player sch p c = (r, c') -> stored_player q c'.
Proof.
  unfold insert_player, stored_player. intros Hq.
  destruct (accepts_player _ _ _); [|intros H; now inversion H; subst].
  destruct (existsb (same_player p) (players (current c)));
    intros H; inversion H; subst; [exact Hq|].
  cbn. rewrite existsb_app, Hq. reflexivity.
Qed.

Lemma insert_players_keep (q : Player.t) (ps : list Player.t) :
  forall c c' r,
    stored_player q c -> insert_players sch ps c = (r, c') ->
    stored_player q c'.
Proof.
  unfold insert_players.
  induction ps as [|p ps IH]; intros c c' r Hq H.
  - cbn in H. unfold db_ret in H. now inversion H; subst.
  - cbn [execute_batch] in H. unfold db_bind in H.
    destruct (insert_player sch p c) as [[[]|e] c1] eqn:E.
    + eapply IH; [|exact H]. eapply insert_player_keeps; eassumption.
    + inversion H; subst. eapply insert_player_keeps; eassumption.
Qed.

Lemma insert_players_store (ps : list Player.t) :
  forall c c',
    Forall named ps ->
    insert_players sch ps c = (Ok tt, c') ->
    Forall (fun p => stored_player p c') ps.
Proof.
  induction ps as [|p ps IH]; intros c c' Hnamed H; [constructor|].
  inversion Hnamed as [|? ? Hp Hps]; subst.
  unfold insert_players in H. cbn [execute_batch] in H. unfold db_bind in H.
  destruct (insert_player sch p c) as [[[]|e] c1] eqn:E; [|discriminate].
  constructor.
  - eapply insert_players_keep; [|exact H].
    eapply insert_player_stores; eassumption.
  - eapply IH; eassumption.
Qed.

Lemma stored_players_not_inserted (ps : list Player.t) (c : connection) :
  Forall (fun p => stored_player p c) ps ->
  Forall (fun p => accepts_player sch (current c) p = true) ps ->
  insert_players sch ps c = (Ok tt, c).
Proof.
  unfold insert_players.
  induction 1 as [|p ps Hp _ IH]; intros Haccepts; [reflexivity|].
  inversion Haccepts as [|? ? Ha Has]; subst.
  cbn [execute_batch]. unfold db_bind.
  assert (Hone : insert_player sch p c = (Ok tt, c)).
  { unfold insert_player. unfold stored_player in Hp. now rewrite Ha, Hp. }
  rewrite Hone. now apply IH.
Qed.

(** X23: inserting a roster is idempotent: once a roster of named players
    has been inserted, inserting it again adds no row and leaves the
    connection as it is, so a player shared by several matches is stored
    once. *)
Theorem roster_inserted_once (ps : list Player.t) (c c' : connection) :
  Forall named ps ->
  Forall (fun p => accepts_player sch (current c') p = true) ps ->
  insert_players sch ps c = (Ok tt, c') ->
  insert_players sch ps c' = (Ok tt, c').
Proof.
  intros Hnamed Haccepts H.
  apply stored_players_not_inserted; [|exact Haccepts].
  eapply insert_players_store; eassumption.
Qed.

End Rosters.

Lemma roster_inserted_once_witness :
  insert_players permissive repeated_roster roster_connection
  = (Ok tt, roster_connection) /\
  List.length (players (current roster_connection)) = 2%nat.
Proof.
  split; [|vm_compute; reflexivity].
  apply (roster_inserted_once permissive repeated_roster fresh_connection).
  - repeat constructor; eexists; reflexivity.
  - repeat constructor.
  - vm_compute. reflexivity.
Defined.

(** ** Wicket detail *)

Lemma extract_wicket_section (fields : list (string * pyval)) :
  extract_wicket (PDict fields)
  = if Py.truthy (wicket_section fields) then
      wicket <- (if Py.is_list (wicket_section fields)
                 then Py.index (wicket_section fields) 0
                 else Ok (wicket_section fields)) ;;
      wicket_type <- Py.get wicket "kind" PNone ;;
      player_dismissed <- Py.get wicket "player_out" PNone ;;
      fielders <- Py.get wicket "fielders" (PList []) ;;
      fielder <- (if Py.truthy fielders then
                    first <- Py.index fielders 0 ;;
                    if Py.is_dict first then Py.get first "name" PNone
                    else Ok first
                  else Ok PNone) ;;
      Ok (true, wicket_type, player_dismissed, fielder)
    else Ok (false, PNone, PNone, PNone).
Proof. reflexivity. Qed.

(** X24: when the wicket section is a non-empty list, only its first
    entry is read: the detail recorded is that of a delivery whose section is
    the list cut down to this entry, whatever the list holds after it.  A
    first entry that is a mapping without fielders, be it empty, flags a
    wicket with its 'kind' and 'player_out' fields ([None] when absent). *)
Theorem first_wicket_only (fields : list (string * pyval)) (first : pyval)
    (others : list pyval) :
  wicket_section fields = PList (first :: others) ->
  extract_wicket (PDict fields)
  = extract_wicket (PDict [("wicket", PList [first])]) /\
  (forall w,
     first = PDict w -> Py.dict_lookup "fielders" w = None ->
     extract_wicket (PDict fields)
     = Ok (true, field_or_none w "kind", field_or_none w "player_out",
           PNone)).
Proof.
  intros Hsection. rewrite !extract_wicket_section.
  rewrite Hsection.
  assert (Hone : wicket_section [("wicket", PList [first])] = PList [first])
    by reflexivity.
  rewrite Hone. cbn [Py.truthy Py.is_list Py.index nth_error bind].
  split; [reflexivity|].
  intros w -> Hnone. unfold Py.get. rewrite Hnone. reflexivity.
Qed.

Lemma first_wicket_only_witness :
  extract_wicket
    (PDict [("wickets",
             PList [PDict [("kind", PStr "run out");
                           ("player_out", PStr "PD Salt")];
                    PDict [("kind", PStr "obstructing the field");
                           ("player_out", PStr "V Kohli")]])])
  = Ok (true, PStr "run out", PStr "PD Salt", PNone).
Proof.
  destruct (first_wicket_only
              [("wickets",
                PList [PDict [("kind", PStr "run out");
                              ("player_out", PStr "PD Salt")];
                       PDict [("kind", PStr "obstructing the field");
                              ("player_out", PStr "V Kohli")]])]
              (PDict [("kind", PStr "run out"); ("player_out", PStr "PD Salt")])
              [PDict [("kind", PStr "obstructing the field");
                      ("player_out", PStr "V Kohli")]] eq_refl)
    as (_ & Hdetail).
  exact (Hdetail _ eq_refl eq_refl).
Defined.

(** An empty first entry still counts as a wicket, an empty section does
    not. *)
Example empty_wicket_entries :
  extract_wicket (PDict [("wickets", PList [PDict []; PDict []])])
  = Ok (true, PNone, PNone, PNone) /\
  extract_wicket (PDict [("wicket", PDict [])])
  = Ok (false, PNone, PNone, PNone).
Proof. split; reflexivity. Qed.

(** X25: a delivery without a wicket section, or with an empty one, has
    no wicket and [None] detail.  For a section that is a non-empty mapping
    the wicket flag is set, kind and dismissed player are its 'kind' and
    'player_out' fields ([None] when absent), and the fielder is [None]
    without fielders, the first fielder when it is a plain name, and its
    'name' field when it is a mapping. *)
Theorem wicket_detail (fields : list (string * pyval)) :
  (Py.truthy (wicket_section fields) = false ->
   extract_wicket (PDict fields) = Ok (false, PNone, PNone, PNone)) /\
  (forall w,
     wicket_section fields = PDict w -> w <> [] ->
     (Py.dict_lookup "fielders" w = None ->
      extract_wicket (PDict fields)
      = Ok (true, field_or_none w "kind", field_or_none w "player_out",
            PNone)) /\
     (forall name more,
        Py.dict_lookup "fielders" w = Some (PList (PStr name :: more)) ->
        extract_wicket (PDict fields)
        = Ok (true, field_or_none w "kind", field_or_none w "player_out",
              PStr name)) /\
     (forall f more,
        Py.dict_lookup "fielders" w = Some (PList (PDict f :: more)) ->
        extract_wicket (PDict fields)
        = Ok (true, field_or_none w "kind", field_or_none w "player_out",
              field_or_none f "name"))).
Proof.
  split.
  - intros Hnone. rewrite extract_wicket_section. now rewrite Hnone.
  - intros w Hsection Hw.
    assert (Hstart :
              extract_wicket (PDict fields)
              = (fielders <- Py.get (PDict w) "fielders" (PList []) ;;
                 fielder <- (if Py.truthy fielders then
                               first <- Py.index fielders 0 ;;
                               if Py.is_dict first
                               then Py.get first "name" PNone
                               else Ok first
                             else Ok PNone) ;;
                 Ok (true, field_or_none w "kind",
                     field_or_none w "player_out", fielder))).
    { rewrite extract_wicket_section, Hsection.
      destruct w; [contradiction | reflexivity]. }
    rewrite Hstart. unfold Py.get.
    split; [|split].
    + intros ->. reflexivity.
    + intros name more ->. reflexivity.
    + intros f more ->. reflexivity.
Qed.

Lemma wicket_detail_witness :
  extract_wicket
    (PDict [("wicket",
             PDict [("kind", PStr "caught");
                    ("player_out", PStr "PD Salt");
                    ("fielders", PList [PDict [("name", PStr "RG Sharma")]])])])
  = Ok (true, PStr "caught", PStr "PD Salt", PStr "RG Sharma").
Proof.
  destruct (wicket_detail
              [("wicket",
                PDict [("kind", PStr "caught");
                       ("player_out", PStr "PD Salt");
                       ("fielders",
                        PList [PDict [("name", PStr "RG Sharma")]])])])
    as (_ & Hdetail).
  destruct (Hdetail _ eq_refl ltac:(discriminate)) as (_ & _ & Hmapping).
  exact (Hmapping [("name", PStr "RG Sharma")] [] eq_refl).
Defined.
